(** * The SAML authentication provider of the security plugin

    A shallow embedding of [SAMLAuthenticationProvider]
    (x-pack/plugins/security/server/authentication/providers/saml.ts) and
    the properties of its [login], [authenticate] and [logout] methods.

    The provider is a stateless strategy object: every method takes the
    request and the session state and resolves to a tagged result.  Its
    collaborators (the Elasticsearch client, the token service, the
    logger) are effects; they are modelled by a small monad that threads
    the state of the outside world, records what the provider did in a
    trace, and carries JavaScript exceptions. *)

From Stdlib Require Import Ascii String.
From stdpp Require Import base option list strings gmap.

Local Open Scope string_scope.

(** ** JavaScript strings

    Header values, tokens and URLs are JavaScript strings.  Node decodes
    header bytes as latin1, so a header value is a sequence of code units
    below 256: one [ascii] per code unit. *)

Module Js.

Definition code (c : ascii) : nat := nat_of_ascii c.

(** The code units below 256 matched by [\s]: TAB, LF, VT, FF, CR, SPACE
    and NO-BREAK SPACE. *)
Definition is_whitespace (c : ascii) : bool :=
  let n := code c in
  (((9 <=? n) && (n <=? 13)) || (n =? 32) || (n =? 160))%nat.

(** [String.prototype.toLowerCase] on one code unit below 256: the
    letters A-Z, and the letters of U+00C0..U+00DE (all but the
    multiplication sign U+00D7), move up by 32. *)
Definition toLowerCase_unit (c : ascii) : ascii :=
  let n := code c in
  if (((65 <=? n) && (n <=? 90))
      || ((192 <=? n) && (n <=? 222) && negb (n =? 215)))%nat
  then ascii_of_nat (n + 32)
  else c.

Fixpoint toLowerCase (s : string) : string :=
  match s with
  | EmptyString => EmptyString
  | String c s' => String (toLowerCase_unit c) (toLowerCase s')
  end.

Fixpoint of_rev (acc : list ascii) (tail : string) : string :=
  match acc with
  | [] => tail
  | c :: acc' => of_rev acc' (String c tail)
  end.

(** [s.split(/\s+/)]: the pieces of [s] between maximal runs of
    whitespace.  [acc] holds the current piece, reversed; [in_separator]
    tells that the previous code unit belonged to a separator. *)
Fixpoint split_go (in_separator : bool) (acc : list ascii) (s : string)
  : list string :=
  match s with
  | EmptyString => [of_rev acc ""]
  | String c s' =>
      if is_whitespace c then
        if in_separator then split_go true acc s'
        else of_rev acc "" :: split_go true [] s'
      else split_go false (c :: acc) s'
  end.

Definition split_whitespace (s : string) : list string :=
  split_go false [] s.

(** [s.slice(1)]. *)
Definition slice1 (s : string) : string :=
  match s with
  | EmptyString => EmptyString
  | String _ s' => s'
  end.

(** Truthiness of a value of type [string | undefined]. *)
Definition truthy (v : option string) : bool :=
  match v with
  | Some s => negb (String.eqb s "")
  | None => false
  end.

(** Truthiness of a value of type [object | null | undefined]. *)
Definition defined {A : Type} (v : option A) : bool :=
  match v with
  | Some _ => true
  | None => false
  end.

(** [v || d] for [v : string | undefined] and a string [d]. *)
Definition or_else (v : option string) (d : string) : string :=
  match v with
  | Some s => if String.eqb s "" then d else s
  | None => d
  end.

(** Errors.  [Boom] errors carry the HTTP status they answer with;
    errors of the Elasticsearch client carry the status of the
    response. *)
Inductive ErrorKind : Type :=
| PlainError
| TypeError
| BoomError (statusCode : nat)
| ResponseError (statusCode : nat).

Record Error : Type := mkError { kind : ErrorKind; message : string }.

Definition new_Error (msg : string) : Error := mkError PlainError msg.

End Js.

Module Boom.
Definition badRequest (msg : string) : Js.Error :=
  Js.mkError (Js.BoomError 400) msg.
End Boom.

(** ** Data model *)

(** Modelled from the spec: the [KibanaRequest] type (core/server) is not
    part of the sources at hand; the provider reads the headers, the
    parsed query, and the path and search of the URL.  A header or query
    value is as the HTTP layer parses it: one string, or an array when
    the name was repeated. *)
Inductive Value : Type :=
| Str (s : string)
| Arr (l : list string).

Record Url : Type := mkUrl {
  path : string;
  search : option string
}.

Record KibanaRequest : Type := mkRequest {
  headers : gmap string Value;
  query : gmap string Value;
  url : Url
}.

(** Modelled from the spec: the [TokenPair] type (tokens.ts) is not part
    of the sources at hand; it is an access token with its refresh
    token. *)
Record TokenPair : Type := mkTokenPair {
  pair_accessToken : string;
  pair_refreshToken : string
}.

(** The state the provider keeps in the session: every field is
    optional. *)
Record ProviderState : Type := mkState {
  accessToken : option string;
  refreshToken : option string;
  requestId : option string;
  nextURL : option string
}.

(** The parameters of a login attempt. *)
Record ProviderLoginAttempt : Type := mkLoginAttempt {
  samlResponse : string
}.

Definition state_of_pair (p : TokenPair) : ProviderState :=
  mkState (Some (pair_accessToken p)) (Some (pair_refreshToken p)) None None.

Record AuthenticationRealm : Type := mkRealm { name : string }.

(** Modelled from the spec: the [AuthenticatedUser] type (common/model) is
    not part of the sources at hand; the provider reads [username] and
    [authentication_realm.name] and passes the rest of the profile on. *)
Record AuthenticatedUser : Type := mkUser {
  username : string;
  authentication_realm : AuthenticationRealm;
  profile : list (string * string)
}.

Record AuthHeaders : Type := mkAuthHeaders { authorization : string }.

(** Modelled from the spec: the [AuthenticationResult] class
    (authentication_result.ts) is not part of the sources at hand.  It is
    a closed sum of four shapes; [succeeded] and [redirectTo] may carry a
    state update. *)
Module AuthenticationResult.

Inductive t : Type :=
| notHandled
| succeeded (user : AuthenticatedUser) (authHeaders : option AuthHeaders)
            (state : option ProviderState)
| failed (error : Js.Error)
| redirectTo (redirectURL : string) (state : option ProviderState).

Definition is_notHandled (r : t) : bool :=
  match r with notHandled => true | _ => false end.
Definition is_succeeded (r : t) : bool :=
  match r with succeeded _ _ _ => true | _ => false end.
Definition is_failed (r : t) : bool :=
  match r with failed _ => true | _ => false end.
Definition is_redirected (r : t) : bool :=
  match r with redirectTo _ _ => true | _ => false end.

Definition user (r : t) : option AuthenticatedUser :=
  match r with succeeded u _ _ => Some u | _ => None end.
Definition state (r : t) : option ProviderState :=
  match r with
  | succeeded _ _ st | redirectTo _ st => st
  | _ => None
  end.
Definition error (r : t) : option Js.Error :=
  match r with failed e => Some e | _ => None end.

Definition shouldUpdateState (r : t) : bool :=
  match state r with Some _ => true | None => false end.

End AuthenticationResult.

(** Modelled from the spec: the [DeauthenticationResult] class
    (deauthentication_result.ts) is not part of the sources at hand. *)
Module DeauthenticationResult.

Inductive t : Type :=
| notHandled
| failed (error : Js.Error)
| redirectTo (redirectURL : string).

End DeauthenticationResult.

(** ** Collaborators and effects *)

Inductive Outcome (A : Type) : Type :=
| Returns (a : A)
| Throws (e : Js.Error).
Arguments Returns {A} a.
Arguments Throws {A} e.

(** The realm of the provider when it is configured, the assertion
    consumer service URL otherwise. *)
Inductive RealmOrAcs : Type :=
| ByRealm (realm : string)
| ByAcs (acs : string).

(** The four privileged calls the provider makes through
    [client.callAsInternalUser], each with its body. *)
Inductive Endpoint : Type :=
| shield_samlAuthenticate (ids : list string) (content : string)
| shield_samlPrepare (body : RealmOrAcs)
| shield_samlLogout (token refresh_token : option string)
| shield_samlInvalidate (queryString : string) (body : RealmOrAcs).

Record SamlAuthenticateResponse : Type := mkSamlAuthenticateResponse {
  access_token : string;
  refresh_token : string
}.

Record SamlPrepareResponse : Type := mkSamlPrepareResponse {
  id : string;
  redirect : string
}.

(** What each endpoint answers; the two logout endpoints answer with an
    optional [redirect]. *)
Definition Response (e : Endpoint) : Type :=
  match e with
  | shield_samlAuthenticate _ _ => SamlAuthenticateResponse
  | shield_samlPrepare _ => SamlPrepareResponse
  | shield_samlLogout _ _ => option string
  | shield_samlInvalidate _ _ => option string
  end.

(** What the provider does to the outside world, in order. *)
Inductive Event : Type :=
| Debug (msg : string)
| GetUser (request : KibanaRequest) (authHeaders : option AuthHeaders)
| CallAsInternalUser (e : Endpoint)
| TokensRefresh (refreshToken : string)
| TokensInvalidate (accessToken refreshToken : option string).

(** The collaborators of a provider over a world [W]: the options it is
    constructed with, the [getUser] of its base class, the two helpers it
    imports, and its realm.  None of them is part of the sources at hand;
    the provider is verified for all of them. *)
Record Collaborators (W : Type) : Type := mkCollaborators {
  callAsInternalUser : forall e : Endpoint, W -> Outcome (Response e) * W;
  tokens_refresh : string -> W -> Outcome (option TokenPair) * W;
  tokens_invalidate : option string -> option string -> W -> Outcome unit * W;
  basePath_get : KibanaRequest -> string;
  getServerBaseURL : string;
  getUser_oracle : KibanaRequest -> option AuthHeaders -> W -> Outcome AuthenticatedUser * W;
  canRedirectRequest : KibanaRequest -> bool;
  isAccessTokenExpiredError : Js.Error -> bool;
  realm : option string
}.
Arguments callAsInternalUser {W} _ _ _.
Arguments tokens_refresh {W} _ _ _.
Arguments tokens_invalidate {W} _ _ _ _.
Arguments basePath_get {W} _ _.
Arguments getServerBaseURL {W} _.
Arguments getUser_oracle {W} _ _ _ _.
Arguments canRedirectRequest {W} _ _.
Arguments isAccessTokenExpiredError {W} _ _.
Arguments realm {W} _.

(** A run of an asynchronous method from a world: how it completes, the
    world it leaves, and what it did. *)
Record Run (W A : Type) : Type := mkRun {
  outcome : Outcome A;
  world : W;
  trace : list Event
}.
Arguments mkRun {W A} _ _ _.
Arguments outcome {W A} _.
Arguments world {W A} _.
Arguments trace {W A} _.

Definition M (W A : Type) : Type := W -> Run W A.

Definition ret {W A} (a : A) : M W A := fun w => mkRun (Returns a) w [].

Definition throw {W A} (e : Js.Error) : M W A := fun w => mkRun (Throws e) w [].

Definition bind {W A B} (m : M W A) (k : A -> M W B) : M W B :=
  fun w =>
    let r := m w in
    match outcome r with
    | Returns a =>
        let r' := k a (world r) in
        mkRun (outcome r') (world r') (trace r ++ trace r')
    | Throws e => mkRun (Throws e) (world r) (trace r)
    end.

(** [try { body } catch (err) { handler }]. *)
Definition try_catch {W A} (body : M W A) (handler : Js.Error -> M W A) : M W A :=
  fun w =>
    let r := body w in
    match outcome r with
    | Returns _ => r
    | Throws e =>
        let r' := handler e (world r) in
        mkRun (outcome r') (world r') (trace r ++ trace r')
    end.

(** [try { x = body } catch (err) { return handler(err) }], then the rest
    of the method with [x]. *)
Definition try_catch_return {W A B}
           (body : M W A) (handler : Js.Error -> M W B) (rest : A -> M W B) : M W B :=
  fun w =>
    let r := body w in
    let r' := match outcome r with
              | Returns a => rest a (world r)
              | Throws e => handler e (world r)
              end in
    mkRun (outcome r') (world r') (trace r ++ trace r').

(** An awaited call to a collaborator. *)
Definition await {W A} (ev : Event) (call : W -> Outcome A * W) : M W A :=
  fun w => let r := call w in mkRun r.1 r.2 [ev].

Definition logger_debug {W} (msg : string) : M W unit :=
  fun w => mkRun (Returns tt) w [Debug msg].

#[global] Instance M_ret {W} : MRet (M W) := @ret W.
#[global] Instance M_bind {W} : MBind (M W) := fun A B k m => bind m k.

(** ** The provider *)

(** [isSAMLRequestQuery(query)]: the parsed query has a truthy
    [SAMLRequest]; an array is truthy whatever it holds. *)
Definition isSAMLRequestQuery (query : gmap string Value) : bool :=
  match query !! "SAMLRequest" with
  | Some (Str s) => negb (String.eqb s "")
  | Some (Arr _) => true
  | None => false
  end.

(** What [authenticateViaHeader] resolves to. *)
Record HeaderAuthentication : Type := mkHeaderAuthentication {
  authenticationResult : AuthenticationResult.t;
  headerNotRecognized : bool
}.

Section SAMLAuthenticationProvider.

Context {W : Type} (this : Collaborators W).

Import AuthenticationResult.

Definition getUser (request : KibanaRequest) (authHeaders : option AuthHeaders)
  : M W AuthenticatedUser :=
  await (GetUser request authHeaders) (getUser_oracle this request authHeaders).

Definition client_callAsInternalUser (e : Endpoint) : M W (Response e) :=
  await (CallAsInternalUser e) (callAsInternalUser this e).

(** Constructs Kibana's assertion consumer service URL. *)
Definition getACS (request : KibanaRequest) : string :=
  getServerBaseURL this +:+ basePath_get this request +:+ "/api/security/v1/saml".

(** Prefer the realm name if it is specified, otherwise fall back to ACS. *)
Definition realmOrAcs (request : KibanaRequest) : RealmOrAcs :=
  match realm this with
  | Some r => if String.eqb r "" then ByAcs (getACS request) else ByRealm r
  | None => ByAcs (getACS request)
  end.

Definition authenticateViaHeader (request : KibanaRequest) : M W HeaderAuthentication :=
  logger_debug "Trying to authenticate via header.";;
  match headers request !! "authorization" with
  | Some (Str (String _ _ as authorization)) =>
      let authenticationSchema := hd "" (Js.split_whitespace authorization) in
      if negb (String.eqb (Js.toLowerCase authenticationSchema) "bearer") then
        logger_debug ("Unsupported authentication schema: " +:+ authenticationSchema);;
        mret (mkHeaderAuthentication notHandled true)
      else
        try_catch
          (user ← getUser request None;
           logger_debug "Request has been authenticated via header.";;
           mret (mkHeaderAuthentication (succeeded user None None) false))
          (fun err =>
             logger_debug ("Failed to authenticate request via header: " +:+ Js.message err);;
             mret (mkHeaderAuthentication (failed err) false))
  | _ =>
      logger_debug "Authorization header is not presented.";;
      mret (mkHeaderAuthentication notHandled false)
  end.

Definition authenticateViaState (request : KibanaRequest) (state : ProviderState)
  : M W AuthenticationResult.t :=
  logger_debug "Trying to authenticate via state.";;
  match accessToken state with
  | Some (String _ _ as accessToken) =>
      try_catch
        (let authHeaders := mkAuthHeaders ("Bearer " +:+ accessToken) in
         user ← getUser request (Some authHeaders);
         logger_debug "Request has been authenticated via state.";;
         mret (succeeded user (Some authHeaders) None))
        (fun err =>
           logger_debug ("Failed to authenticate request via state: " +:+ Js.message err);;
           mret (failed err))
  | _ =>
      logger_debug "Access token is not found in state.";;
      mret notHandled
  end.

Definition authenticateViaHandshake (request : KibanaRequest)
  : M W AuthenticationResult.t :=
  logger_debug "Trying to initiate SAML handshake.";;
  if negb (canRedirectRequest this request) then
    logger_debug "SAML handshake can not be initiated by AJAX requests.";;
    mret notHandled
  else
    try_catch
      (let preparePayload := realmOrAcs request in
       prepared ← client_callAsInternalUser (shield_samlPrepare preparePayload);
       logger_debug "Redirecting to Identity Provider with SAML request.";;
       mret (redirectTo
               (redirect prepared)
               (Some (mkState None None
                        (Some (id prepared))
                        (Some (basePath_get this request +:+ path (url request)))))))
      (fun err =>
         logger_debug ("Failed to initiate SAML handshake: " +:+ Js.message err);;
         mret (failed err)).

Definition authenticateViaRefreshToken (request : KibanaRequest) (state : ProviderState)
  : M W AuthenticationResult.t :=
  logger_debug "Trying to refresh access token.";;
  match refreshToken state with
  | Some (String _ _ as refreshToken) =>
      try_catch_return
        (await (TokensRefresh refreshToken) (tokens_refresh this refreshToken))
        (fun err => mret (failed err))
        (fun refreshedTokenPair =>
           match refreshedTokenPair with
           | None =>
               if canRedirectRequest this request then
                 logger_debug
                   "Both access and refresh tokens are expired. Re-initiating SAML handshake.";;
                 authenticateViaHandshake request
               else
                 mret (failed (Boom.badRequest "Both access and refresh tokens are expired."))
           | Some refreshedTokenPair =>
               try_catch
                 (let authHeaders :=
                    mkAuthHeaders ("Bearer " +:+ pair_accessToken refreshedTokenPair) in
                  user ← getUser request (Some authHeaders);
                  logger_debug "Request has been authenticated via refreshed token.";;
                  mret (succeeded user (Some authHeaders)
                                  (Some (state_of_pair refreshedTokenPair))))
                 (fun err =>
                    logger_debug
                      ("Failed to authenticate user using newly refreshed access token: "
                         +:+ Js.message err);;
                    mret (failed err))
           end)
  | _ =>
      logger_debug "Refresh token is not found in state.";;
      mret notHandled
  end.

(** Performs SAML request authentication. *)
Definition authenticate (request : KibanaRequest) (state : option ProviderState)
  : M W AuthenticationResult.t :=
  logger_debug ("Trying to authenticate user request to " +:+ path (url request) +:+ ".");;
  viaHeader ← authenticateViaHeader request;
  if headerNotRecognized viaHeader then mret (authenticationResult viaHeader)
  else
    authenticationResult ←
      match state with
      | Some state' =>
          if is_notHandled (authenticationResult viaHeader) then
            authenticationResult ← authenticateViaState request state';
            match authenticationResult with
            | failed error =>
                if isAccessTokenExpiredError this error
                then authenticateViaRefreshToken request state'
                else mret authenticationResult
            | _ => mret authenticationResult
            end
          else mret (authenticationResult viaHeader)
      | None => mret (authenticationResult viaHeader)
      end;
    if is_notHandled authenticationResult
    then authenticateViaHandshake request
    else mret authenticationResult.

Definition loginWithSAMLResponse (request : KibanaRequest) (samlResponse : string)
           (state : option ProviderState) : M W AuthenticationResult.t :=
  logger_debug "Trying to log in with SAML response payload.";;
  let stateRequestId := match state with Some st => requestId st | None => Some "" end in
  let stateRedirectURL := match state with Some st => nextURL st | None => Some "" end in
  if Js.defined state && (negb (Js.truthy stateRequestId) || negb (Js.truthy stateRedirectURL))
  then
    let message :=
      "SAML response state does not have corresponding request id or redirect URL." in
    logger_debug message;;
    mret (failed (Boom.badRequest message))
  else
    logger_debug (if Js.truthy stateRequestId
                  then "Login has been previously initiated by Kibana."
                  else "Login has been initiated by Identity Provider.");;
    try_catch
      (tokens ← client_callAsInternalUser
                  (shield_samlAuthenticate
                     match stateRequestId with
                     | Some (String _ _ as stateRequestId) => [stateRequestId]
                     | _ => []
                     end
                     samlResponse);
       logger_debug "Login has been performed with SAML response.";;
       mret (redirectTo
               (Js.or_else stateRedirectURL (basePath_get this request +:+ "/"))
               (Some (mkState (Some (access_token tokens)) (Some (refresh_token tokens))
                              None None))))
      (fun err =>
         logger_debug ("Failed to log in with SAML response: " +:+ Js.message err);;
         mret (failed err)).

(** The cast of the existing state is unchecked: [existingState] is
    whatever the session holds, and reading a token of a missing state
    is a [TypeError]. *)
Definition loginWithNewSAMLResponse (request : KibanaRequest) (samlResponse : string)
           (existingState : option ProviderState) (user : AuthenticatedUser)
  : M W AuthenticationResult.t :=
  logger_debug "Trying to log in with SAML response payload and existing valid session.";;
  payloadAuthenticationResult ← loginWithSAMLResponse request samlResponse None;
  if is_failed payloadAuthenticationResult then mret payloadAuthenticationResult
  else
    match AuthenticationResult.state payloadAuthenticationResult with
    | None =>
        (* [!payloadAuthenticationResult.shouldUpdateState()] *)
        mret (failed (Js.new_Error
                        "Login with SAML payload did not produce access and refresh tokens."))
    | Some newState =>
        newUserAuthenticationResult ← authenticateViaState request newState;
        if is_failed newUserAuthenticationResult then mret newUserAuthenticationResult
        else
          match AuthenticationResult.user newUserAuthenticationResult with
          | None =>
              (* [newUserAuthenticationResult.user === undefined] *)
              mret (failed (Js.new_Error
                "Could not retrieve user information using tokens produced for the SAML payload."))
          | Some newUser =>
              try_catch_return
                (logger_debug "Perform IdP initiated local logout.";;
                 match existingState with
                 | Some existing =>
                     await (TokensInvalidate (accessToken existing) (refreshToken existing))
                           (tokens_invalidate this (accessToken existing) (refreshToken existing))
                 | None =>
                     throw (Js.mkError Js.TypeError
                                       "Cannot read property 'accessToken' of undefined")
                 end)
                (fun err =>
                   logger_debug ("Failed to perform IdP initiated local logout: "
                                   +:+ Js.message err);;
                   mret (failed err))
                (fun _ =>
                   if negb (String.eqb (username newUser) (username user))
                      || negb (String.eqb (name (authentication_realm newUser))
                                          (name (authentication_realm user)))
                   then
                     logger_debug
                       "Login initiated by Identity Provider is for a different user than currently authenticated.";;
                     mret (redirectTo (basePath_get this request +:+ "/overwritten_session")
                                      (Some newState))
                   else
                     logger_debug
                       "Login initiated by Identity Provider is for currently authenticated user.";;
                     mret payloadAuthenticationResult)
          end
    end.

(** Performs initial login request using SAMLResponse payload. *)
Definition login (request : KibanaRequest) (attempt : ProviderLoginAttempt)
           (state : option ProviderState) : M W AuthenticationResult.t :=
  let samlResponse := samlResponse attempt in
  logger_debug "Trying to perform a login.";;
  authenticationResult ←
    match state with
    | Some state' => authenticateViaState request state'
    | None => mret notHandled
    end;
  match authenticationResult with
  | notHandled => loginWithSAMLResponse request samlResponse state
  | succeeded user _ resultState =>
      loginWithNewSAMLResponse request samlResponse (resultState ∪ state) user
  | redirectTo _ _ =>
      logger_debug "Login has been successfully performed.";;
      mret authenticationResult
  | failed error =>
      logger_debug ("Failed to perform a login: " +:+ Js.message error);;
      mret authenticationResult
  end.

Definition performUserInitiatedSingleLogout (accessToken refreshToken : option string)
  : M W (option string) :=
  logger_debug "Single logout has been initiated by the user.";;
  redirect ← client_callAsInternalUser (shield_samlLogout accessToken refreshToken);
  logger_debug "User session has been successfully invalidated.";;
  mret redirect.

Definition performIdPInitiatedSingleLogout (request : KibanaRequest)
  : M W (option string) :=
  logger_debug "Single logout has been initiated by the Identity Provider.";;
  let invalidatePayload := realmOrAcs request in
  redirect ← client_callAsInternalUser
               (shield_samlInvalidate
                  match search (url request) with
                  | Some (String _ _ as search) => Js.slice1 search
                  | _ => ""
                  end
                  invalidatePayload);
  logger_debug "User session has been successfully invalidated.";;
  mret redirect.

(** Invalidates SAML access token if it exists. *)
Definition logout (request : KibanaRequest) (state : option ProviderState)
  : M W DeauthenticationResult.t :=
  logger_debug ("Trying to log user out via " +:+ path (url request) +:+ ".");;
  if negb (Js.truthy (state ≫= accessToken)) && negb (isSAMLRequestQuery (query request))
  then
    logger_debug "There is neither access token nor SAML session to invalidate.";;
    mret DeauthenticationResult.notHandled
  else
    try_catch
      (redirect ←
         (if isSAMLRequestQuery (query request)
          then performIdPInitiatedSingleLogout request
          else match state with
               | Some state' =>
                   performUserInitiatedSingleLogout (accessToken state') (refreshToken state')
               | None =>
                   throw (Js.mkError Js.TypeError
                                     "Cannot read property 'accessToken' of undefined")
               end);
       match redirect with
       | Some redirect =>
           logger_debug "Redirecting user to Identity Provider to complete logout.";;
           mret (DeauthenticationResult.redirectTo redirect)
       | None => mret (DeauthenticationResult.redirectTo "/logged_out")
       end)
      (fun err =>
         logger_debug ("Failed to deauthenticate user: " +:+ Js.message err);;
         mret (DeauthenticationResult.failed err)).

End SAMLAuthenticationProvider.

(** ** What a trace tells *)

(** The four strategies of [authenticate]; each announces itself to the
    logger when it is entered. *)
Inductive Strategy : Type :=
| ViaHeader
| ViaState
| ViaRefreshToken
| ViaHandshake.

Definition announcement (s : Strategy) : string :=
  match s with
  | ViaHeader => "Trying to authenticate via header."
  | ViaState => "Trying to authenticate via state."
  | ViaRefreshToken => "Trying to refresh access token."
  | ViaHandshake => "Trying to initiate SAML handshake."
  end.

Definition attempted (s : Strategy) (t : list Event) : Prop :=
  In (Debug (announcement s)) t.

Definition is_call (ev : Event) : bool :=
  match ev with
  | Debug _ => false
  | _ => true
  end.

(** [loginWithNewSAMLResponse] says which way its comparison of the two
    users went; a trace without either verdict is one of a run that did
    not compare them. *)
Definition verdicts : list string :=
  ["Login initiated by Identity Provider is for a different user than currently authenticated.";
   "Login initiated by Identity Provider is for currently authenticated user."].

Definition compared (t : list Event) : Prop :=
  exists verdict, In verdict verdicts /\ In (Debug verdict) t.

(** The calls to collaborators in a trace, the logger left out. *)
Definition calls (t : list Event) : list Event := List.filter is_call t.

(** The request carries an [Authorization] header the provider looks at:
    a single, non-empty string. *)
Definition authorization_header (request : KibanaRequest) : option string :=
  match headers request !! "authorization" with
  | Some (Str (String c s)) => Some (String c s)
  | _ => None
  end.

(** The scheme word of an [Authorization] header: what stands before its
    first whitespace. *)
Fixpoint scheme_word (authorization : string) : string :=
  match authorization with
  | EmptyString => EmptyString
  | String c s => if Js.is_whitespace c then EmptyString else String c (scheme_word s)
  end.

(** [word] is [lower], a word of small ASCII letters, up to the case of
    its letters: every letter of [word] is the letter of [lower] or its
    capital, 32 code units below. *)
Definition same_letter (c l : ascii) : bool :=
  Ascii.eqb c l || (Js.code c + 32 =? Js.code l)%nat.

Fixpoint equals_ignoring_case (word lower : string) : bool :=
  match word, lower with
  | EmptyString, EmptyString => true
  | String c word', String l lower' => same_letter c l && equals_ignoring_case word' lower'
  | _, _ => false
  end.

(** [r], with the events [t] before its own. *)
Definition after {W A} (t : list Event) (r : Run W A) : Run W A :=
  mkRun (outcome r) (world r) (t ++ trace r).

(** ** Reading runs *)

Section Reading.

Context {W : Type} (this : Collaborators W).

Import AuthenticationResult.

(** The result a strategy makes of the answer of [getUser]. *)
Definition resolved (u : Outcome AuthenticatedUser)
           (ok : AuthenticatedUser -> AuthenticationResult.t) : AuthenticationResult.t :=
  match u with
  | Returns user => ok user
  | Throws err => failed err
  end.

Definition resolved_log (u : Outcome AuthenticatedUser) (ok ko : string) : Event :=
  match u with
  | Returns _ => Debug ok
  | Throws err => Debug (ko +:+ Js.message err)
  end.

(** The state a handshake leaves in the session, and the result the
    handshake makes of the answer to its [samlPrepare] call. *)
Definition handshake_state (request : KibanaRequest) (prepared : SamlPrepareResponse)
  : ProviderState :=
  mkState None None (Some (id prepared))
          (Some (basePath_get this request +:+ path (url request))).

Definition handshake_result (request : KibanaRequest) (p : Outcome SamlPrepareResponse)
  : AuthenticationResult.t :=
  match p with
  | Returns prepared => redirectTo (redirect prepared) (Some (handshake_state request prepared))
  | Throws err => failed err
  end.

(** The state a login leaves in the session: the token pair, and
    nothing of the handshake. *)
Definition session_state (tokens : SamlAuthenticateResponse) : ProviderState :=
  mkState (Some (access_token tokens)) (Some (refresh_token tokens)) None None.

(** The root of Kibana under the base path of the request. *)
Definition default_root (request : KibanaRequest) : string :=
  basePath_get this request +:+ "/".

(** Where a login lands: the [nextURL] of the state when there is one. *)
Definition landing (request : KibanaRequest) (state : option ProviderState) : string :=
  match state ≫= nextURL with
  | Some nextURL => nextURL
  | None => default_root request
  end.

(** The request ids that go with the SAML response: the [requestId] of
    the state when there is one. *)
Definition correlation (state : option ProviderState) : list string :=
  match state ≫= requestId with
  | Some requestId => [requestId]
  | None => []
  end.

(** A state that is missing neither the request id nor the redirect URL
    of its handshake; no state at all is an IdP initiated login. *)
Definition handshake_pending (state : option ProviderState) : bool :=
  match state with
  | Some st => Js.truthy (requestId st) && Js.truthy (nextURL st)
  | None => true
  end.

(** What [login] says of a state that misses one of the two. *)
Definition malformed_state : string :=
  "SAML response state does not have corresponding request id or redirect URL.".

(** The two users are the same for the provider. *)
Definition same_user (u v : AuthenticatedUser) : bool :=
  String.eqb (username u) (username v)
  && String.eqb (name (authentication_realm u)) (name (authentication_realm v)).

End Reading.

(** ** A concrete deployment

    A world that counts the calls made to it, behind the base path
    [/kbn], with collaborators that answer from a script. *)
Module Example.

Definition World : Type := nat.

Definition answer {A : Type} (o : Outcome A) : World -> Outcome A * World :=
  fun n => (o, S n).

Record Script : Type := mkScript {
  on_getUser : option AuthHeaders -> Outcome AuthenticatedUser;
  on_call : forall e : Endpoint, Outcome (Response e);
  on_refresh : string -> Outcome (option TokenPair);
  on_invalidate : Outcome unit;
  redirectable : bool
}.

Definition expired : Js.Error := Js.mkError (Js.ResponseError 401) "token expired".
Definition unavailable : Js.Error := Js.mkError (Js.ResponseError 503) "unavailable".

Definition is_expired (e : Js.Error) : bool :=
  match Js.kind e with
  | Js.ResponseError 401 => true
  | _ => false
  end.

Definition collaborators (s : Script) : Collaborators World :=
  {| callAsInternalUser := fun e => answer (on_call s e);
     tokens_refresh := fun refreshToken => answer (on_refresh s refreshToken);
     tokens_invalidate := fun _ _ => answer (on_invalidate s);
     basePath_get := fun _ => "/kbn";
     getServerBaseURL := "https://kibana.test";
     getUser_oracle := fun _ authHeaders => answer (on_getUser s authHeaders);
     canRedirectRequest := fun _ => redirectable s;
     isAccessTokenExpiredError := is_expired;
     realm := Some "saml1" |}.

Definition alice : AuthenticatedUser := mkUser "alice" (mkRealm "saml1") [].
Definition bob : AuthenticatedUser := mkUser "bob" (mkRealm "saml1") [].

Definition request (authorization : option string) (samlRequest : option string)
  : KibanaRequest :=
  {| headers := match authorization with
                | Some a => {[ "authorization" := Str a ]}
                | None => ∅
                end;
     query := match samlRequest with
              | Some q => {[ "SAMLRequest" := Str q ]}
              | None => ∅
              end;
     url := mkUrl "/app/home" None |}.

(** The Elasticsearch client of a healthy cluster. *)
Definition healthy (e : Endpoint) : Outcome (Response e) :=
  match e with
  | shield_samlAuthenticate _ _ => Returns (mkSamlAuthenticateResponse "access-2" "refresh-2")
  | shield_samlPrepare _ => Returns (mkSamlPrepareResponse "request-1" "https://idp.test/sso")
  | shield_samlLogout _ _ => Returns (Some "https://idp.test/slo")
  | shield_samlInvalidate _ _ => Returns None
  end.

(** A cluster that does not answer. *)
Definition down (e : Endpoint) : Outcome (Response e) := Throws unavailable.

Definition session : ProviderState :=
  mkState (Some "access-1") (Some "refresh-1") None None.

(** A session that lost its refresh token. *)
Definition session_without_refresh : ProviderState :=
  mkState (Some "access-1") None None None.

(** A session that still holds the request id of its handshake. *)
Definition session_with_requestId : ProviderState :=
  mkState (Some "access-1") (Some "refresh-1") (Some "request-1") None.

(** The states of a handshake: a complete one, and one that lost its
    redirect URL. *)
Definition handshake : ProviderState :=
  mkState None None (Some "request-1") (Some "/kbn/app/home").

Definition handshake_without_nextURL : ProviderState :=
  mkState None None (Some "request-1") None.

(** Everything answers, and every token is the one of alice. *)
Definition all_well : Collaborators World :=
  collaborators (mkScript (fun _ => Returns alice) healthy (fun _ => Returns None)
                          (Returns tt) true).

(** The cluster answers, but no token is accepted anymore: the access
    token has expired, and the token service answers a refresh with
    null.  The request is an AJAX one when [redirectable] is false. *)
Definition tokens_expired (redirectable : bool) : Collaborators World :=
  collaborators (mkScript (fun _ => Throws expired) healthy (fun _ => Returns None)
                          (Returns tt) redirectable).

(** The same, with a cluster that is down when the browser comes back. *)
Definition tokens_expired_cluster_down : Collaborators World :=
  collaborators (mkScript (fun _ => Throws expired) down (fun _ => Returns None)
                          (Returns tt) true).

(** The cluster does not resolve users. *)
Definition users_unavailable : Collaborators World :=
  collaborators (mkScript (fun _ => Throws unavailable) healthy (fun _ => Returns None)
                          (Returns tt) true).

(** The token service does not invalidate tokens. *)
Definition invalidation_fails : Collaborators World :=
  collaborators (mkScript (fun _ => Returns alice) healthy (fun _ => Returns None)
                          (Throws unavailable) true).

(** The cluster is down altogether. *)
Definition cluster_down : Collaborators World :=
  collaborators (mkScript (fun _ => Throws unavailable) down (fun _ => Throws unavailable)
                          (Throws unavailable) true).

End Example.

(** ** What every run keeps

    A postcondition for the methods of the provider: whatever the world,
    every event of the run is one of [ok], a result satisfies [Q] and a
    thrown error [E]. *)

Definition keeps {W A} (ok : Event -> Prop) (m : M W A)
           (Q : A -> Prop) (E : Js.Error -> Prop) : Prop :=
  forall w,
    Forall ok (trace (m w))
    /\ match outcome (m w) with
       | Returns a => Q a
       | Throws e => E e
       end.

(** What may be thrown inside a [try], and what may be thrown by a method
    that never throws. *)
Definition any_error : Js.Error -> Prop := fun _ => True.

Definition no_error : Js.Error -> Prop := fun _ => False.

(** The two shapes of the state the provider writes: the token pair of a
    session, and the request id and redirect URL of a handshake. *)
Definition session_shape (st : ProviderState) : Prop :=
  exists access refresh, st = mkState (Some access) (Some refresh) None None.

Definition handshake_shape (st : ProviderState) : Prop :=
  exists request_id next_url, st = mkState None None (Some request_id) (Some next_url).

(** The results of [authenticate]: a success that stores a state is a
    refreshed session and comes with the headers of its new token; a
    redirect is the start of a handshake and stores it. *)
Definition authenticate_outcome (r : AuthenticationResult.t) : Prop :=
  match r with
  | AuthenticationResult.succeeded _ authHeaders (Some st) =>
      is_Some authHeaders /\ session_shape st
  | AuthenticationResult.redirectTo _ (Some st) => handshake_shape st
  | AuthenticationResult.redirectTo _ None => False
  | _ => True
  end.

(** The results of [login]: a failure, or a redirect that stores a
    session. *)
Definition login_outcome (r : AuthenticationResult.t) : Prop :=
  match r with
  | AuthenticationResult.failed _ => True
  | AuthenticationResult.redirectTo _ (Some st) => session_shape st
  | _ => False
  end.

Section Events.

Context {W : Type} (this : Collaborators W).

(** What [authenticate] may do for a request: log, resolve the user of
    the request, refresh a token, and prepare a SAML request for the
    realm or the ACS of the request. *)
Definition authenticate_event (request : KibanaRequest) (ev : Event) : Prop :=
  match ev with
  | Debug _ => True
  | GetUser request' _ => request' = request
  | TokensRefresh _ => True
  | CallAsInternalUser (shield_samlPrepare body) => body = realmOrAcs this request
  | _ => False
  end.

(** What [login] may do for a request and a SAML response: log, resolve
    the user of the request, exchange that SAML response, and invalidate
    a token pair. *)
Definition login_event (request : KibanaRequest) (samlResponse : string) (ev : Event)
  : Prop :=
  match ev with
  | Debug _ => True
  | GetUser request' _ => request' = request
  | CallAsInternalUser (shield_samlAuthenticate _ content) => content = samlResponse
  | TokensInvalidate _ _ => True
  | _ => False
  end.

End Events.

(** ** More of the concrete deployment *)

Module Deployment.

Import Example.

(** The token service refreshes the expired token of the session: the
    old access token is rejected, the new one is the one of alice. *)
Definition refreshing : Collaborators World :=
  collaborators
    (mkScript (fun authHeaders =>
                 match authHeaders with
                 | Some h => if String.eqb (authorization h) "Bearer access-2"
                             then Returns alice
                             else Throws expired
                 | None => Throws expired
                 end)
              healthy
              (fun _ => Returns (Some (mkTokenPair "access-2" "refresh-2")))
              (Returns tt) true).

(** The token service is down when the expired token is to be refreshed. *)
Definition refresh_fails : Collaborators World :=
  collaborators (mkScript (fun _ => Throws expired) healthy (fun _ => Throws unavailable)
                          (Returns tt) true).

(** The cluster answers the exchange with an empty access token. *)
Definition empty_tokens (e : Endpoint) : Outcome (Response e) :=
  match e with
  | shield_samlAuthenticate _ _ => Returns (mkSamlAuthenticateResponse "" "")
  | shield_samlPrepare _ => Returns (mkSamlPrepareResponse "request-1" "https://idp.test/sso")
  | shield_samlLogout _ _ => Returns None
  | shield_samlInvalidate _ _ => Returns None
  end.

Definition exchange_without_tokens : Collaborators World :=
  collaborators (mkScript (fun _ => Returns alice) empty_tokens (fun _ => Returns None)
                          (Returns tt) true).

(** A state without anything in it. *)
Definition empty_state : ProviderState := mkState None None None None.

(** An identity provider with single logout for the logouts it asks for
    itself, which it answers with a URL made of the query it sent, and
    without one for the logouts of the user. *)
Definition single_logout (e : Endpoint) : Outcome (Response e) :=
  match e with
  | shield_samlAuthenticate _ _ => Returns (mkSamlAuthenticateResponse "access-2" "refresh-2")
  | shield_samlPrepare _ => Returns (mkSamlPrepareResponse "request-1" "https://idp.test/sso")
  | shield_samlLogout _ _ => Returns None
  | shield_samlInvalidate queryString _ => Returns (Some ("https://idp.test/slo?" +:+ queryString))
  end.

Definition idp_single_logout : Collaborators World :=
  collaborators (mkScript (fun _ => Returns alice) single_logout (fun _ => Returns None)
                          (Returns tt) true).

(** The request of a logout the identity provider asks for. *)
Definition idp_logout_request : KibanaRequest :=
  {| headers := ∅;
     query := {[ "SAMLRequest" := Str "fZJBT4Mw" ]};
     url := mkUrl "/api/security/v1/saml" (Some "?SAMLRequest=fZJBT4Mw") |}.

End Deployment.

(** ** Facts about the string operations *)

Section Strings.

Lemma split_go_head (s : string) (acc : list ascii) :
  hd "" (Js.split_go false acc s) = Js.of_rev acc (scheme_word s).
Proof.
  revert acc; induction s as [|c s IH]; intros acc; simpl.
  - reflexivity.
  - destruct (Js.is_whitespace c); simpl.
    + reflexivity.
    + apply IH.
Qed.

(** The first piece of [authorization.split(/\s+/)] is the scheme word. *)
Lemma split_whitespace_head (s : string) :
  hd "" (Js.split_whitespace s) = scheme_word s.
Proof. apply split_go_head. Qed.

Lemma toLowerCase_unit_bearer (c l : ascii) :
  In l (list_ascii_of_string "bearer") ->
  Ascii.eqb (Js.toLowerCase_unit c) l = same_letter c l.
Proof.
  simpl. intros H.
  repeat (destruct H as [<-|H]; [destruct c as [[] [] [] [] [] [] [] []]; vm_compute; reflexivity|]).
  destruct H.
Qed.

Lemma toLowerCase_eqb (s lower : string) :
  (forall c l, In l (list_ascii_of_string lower) ->
               Ascii.eqb (Js.toLowerCase_unit c) l = same_letter c l) ->
  String.eqb (Js.toLowerCase s) lower = equals_ignoring_case s lower.
Proof.
  revert lower; induction s as [|c s IH]; intros [|l lower] H; simpl; try reflexivity.
  rewrite H by (simpl; auto).
  destruct (same_letter c l); simpl; [|reflexivity].
  apply IH. intros c' l' Hl. apply H. simpl; auto.
Qed.

(** The test of [authenticateViaHeader] on the scheme is the comparison
    with [bearer] up to case. *)
Lemma bearer_ignoring_case (s : string) :
  String.eqb (Js.toLowerCase s) "bearer" = equals_ignoring_case s "bearer".
Proof. apply toLowerCase_eqb, toLowerCase_unit_bearer. Qed.

End Strings.

Example split_whitespace_pieces :
  Js.split_whitespace "Bearer  abc def " = ["Bearer"; "abc"; "def"; ""]
  /\ Js.split_whitespace " Bearer abc" = [""; "Bearer"; "abc"]
  /\ Js.split_whitespace "" = [""].
Proof. repeat split; reflexivity. Qed.

Example toLowerCase_BEARER : Js.toLowerCase "BEARER" = "bearer".
Proof. reflexivity. Qed.

(** ** Facts about runs *)

Section Runs.

Context {W : Type}.

Lemma debug_then {A} (msg : string) (k : M W A) w :
  (logger_debug msg ≫= fun _ => k) w = after [Debug msg] (k w).
Proof. reflexivity. Qed.

Lemma await_run {A} (ev : Event) (call : W -> Outcome A * W) w :
  await ev call w = mkRun (call w).1 (call w).2 [ev].
Proof. reflexivity. Qed.

Lemma bind_run {A B} (m : M W A) (k : A -> M W B) w :
  (m ≫= k) w
  = match outcome (m w) with
    | Returns a => after (trace (m w)) (k a (world (m w)))
    | Throws e => mkRun (Throws e) (world (m w)) (trace (m w))
    end.
Proof. reflexivity. Qed.

Lemma try_catch_return_run {A B} (body : M W A) handler (rest : A -> M W B) w :
  try_catch_return body handler rest w
  = after (trace (body w))
          (match outcome (body w) with
           | Returns a => rest a (world (body w))
           | Throws e => handler e (world (body w))
           end).
Proof. reflexivity. Qed.

End Runs.

(** ** The strategies, one by one *)

Section Strategies.

Context {W : Type} (this : Collaborators W).

Import AuthenticationResult.

Lemma authenticateViaHeader_absent request w :
  authorization_header request = None ->
  authenticateViaHeader this request w
  = mkRun (Returns (mkHeaderAuthentication notHandled false)) w
          [Debug "Trying to authenticate via header.";
           Debug "Authorization header is not presented."].
Proof.
  unfold authorization_header, authenticateViaHeader.
  destruct (headers request !! "authorization") as [[[|c s]|l]|];
    intros H; try discriminate H; reflexivity.
Qed.

Lemma authenticateViaHeader_unsupported request w a :
  authorization_header request = Some a ->
  equals_ignoring_case (scheme_word a) "bearer" = false ->
  authenticateViaHeader this request w
  = mkRun (Returns (mkHeaderAuthentication notHandled true)) w
          [Debug "Trying to authenticate via header.";
           Debug ("Unsupported authentication schema: " +:+ scheme_word a)].
Proof.
  unfold authorization_header, authenticateViaHeader.
  destruct (headers request !! "authorization") as [[[|c s]|l]|];
    intros H; try discriminate H.
  injection H as <-. intros Hs.
  rewrite split_whitespace_head, bearer_ignoring_case, Hs. reflexivity.
Qed.

Lemma authenticateViaHeader_bearer request w a :
  authorization_header request = Some a ->
  equals_ignoring_case (scheme_word a) "bearer" = true ->
  let u := getUser_oracle this request None w in
  authenticateViaHeader this request w
  = mkRun (Returns (mkHeaderAuthentication (resolved u.1 (fun user => succeeded user None None))
                                           false))
          u.2
          [Debug "Trying to authenticate via header.";
           GetUser request None;
           resolved_log u.1 "Request has been authenticated via header."
                        "Failed to authenticate request via header: "].
Proof.
  unfold authorization_header, authenticateViaHeader.
  destruct (headers request !! "authorization") as [[[|c s]|l]|];
    intros H; try discriminate H.
  injection H as <-. intros Hs.
  rewrite split_whitespace_head, bearer_ignoring_case, Hs. simpl.
  unfold mbind, M_bind, bind, try_catch, getUser, await, logger_debug; simpl.
  destruct (getUser_oracle this request None w) as [[user|err] w']; reflexivity.
Qed.

Lemma authenticateViaState_no_token request st w :
  Js.truthy (accessToken st) = false ->
  authenticateViaState this request st w
  = mkRun (Returns notHandled) w
          [Debug "Trying to authenticate via state.";
           Debug "Access token is not found in state."].
Proof.
  unfold authenticateViaState.
  destruct (accessToken st) as [[|c s]|]; intros H; try discriminate H; reflexivity.
Qed.

Lemma authenticateViaState_token request st w c s :
  accessToken st = Some (String c s) ->
  let authHeaders := mkAuthHeaders ("Bearer " +:+ String c s) in
  let u := getUser_oracle this request (Some authHeaders) w in
  authenticateViaState this request st w
  = mkRun (Returns (resolved u.1 (fun user => succeeded user (Some authHeaders) None)))
          u.2
          [Debug "Trying to authenticate via state.";
           GetUser request (Some authHeaders);
           resolved_log u.1 "Request has been authenticated via state."
                        "Failed to authenticate request via state: "].
Proof.
  intros H. unfold authenticateViaState. rewrite H.
  unfold mbind, M_bind, bind, try_catch, getUser, await, logger_debug; simpl.
  destruct (getUser_oracle _ _ _ w) as [[user|err] w']; reflexivity.
Qed.

Lemma authenticateViaHandshake_ajax request w :
  canRedirectRequest this request = false ->
  authenticateViaHandshake this request w
  = mkRun (Returns notHandled) w
          [Debug "Trying to initiate SAML handshake.";
           Debug "SAML handshake can not be initiated by AJAX requests."].
Proof. intros H. unfold authenticateViaHandshake. rewrite H. reflexivity. Qed.

Lemma authenticateViaHandshake_redirectable request w :
  canRedirectRequest this request = true ->
  let p := callAsInternalUser this (shield_samlPrepare (realmOrAcs this request)) w in
  authenticateViaHandshake this request w
  = mkRun (Returns (handshake_result this request p.1)) p.2
          [Debug "Trying to initiate SAML handshake.";
           CallAsInternalUser (shield_samlPrepare (realmOrAcs this request));
           match p.1 with
           | Returns _ => Debug "Redirecting to Identity Provider with SAML request."
           | Throws err => Debug ("Failed to initiate SAML handshake: " +:+ Js.message err)
           end].
Proof.
  intros H. unfold authenticateViaHandshake. rewrite H. simpl.
  unfold mbind, M_bind, bind, try_catch, client_callAsInternalUser, await, logger_debug; simpl.
  destruct (callAsInternalUser this _ w) as [[prepared|err] w']; reflexivity.
Qed.

(** The handshake never throws, and always announces itself first. *)
Lemma authenticateViaHandshake_returns request w :
  exists result t,
    outcome (authenticateViaHandshake this request w) = Returns result
    /\ trace (authenticateViaHandshake this request w)
       = Debug (announcement ViaHandshake) :: t
    /\ result = (if canRedirectRequest this request
                 then handshake_result this request
                        (callAsInternalUser this (shield_samlPrepare (realmOrAcs this request)) w).1
                 else notHandled).
Proof.
  destruct (canRedirectRequest this request) eqn:E.
  - rewrite (authenticateViaHandshake_redirectable _ _ E). simpl. eauto.
  - rewrite (authenticateViaHandshake_ajax _ _ E). simpl. eauto.
Qed.

End Strategies.

Section RefreshStrategy.

Context {W : Type} (this : Collaborators W).

Import AuthenticationResult.

Lemma authenticateViaRefreshToken_no_token request st w :
  Js.truthy (refreshToken st) = false ->
  authenticateViaRefreshToken this request st w
  = mkRun (Returns notHandled) w
          [Debug "Trying to refresh access token.";
           Debug "Refresh token is not found in state."].
Proof.
  unfold authenticateViaRefreshToken.
  destruct (refreshToken st) as [[|c s]|]; intros H; try discriminate H; reflexivity.
Qed.

(** With a refresh token the strategy asks the token service, and goes
    on from what it answers. *)
Lemma authenticateViaRefreshToken_token request st w c s :
  refreshToken st = Some (String c s) ->
  let refreshed := tokens_refresh this (String c s) w in
  authenticateViaRefreshToken this request st w
  = after [Debug "Trying to refresh access token."; TokensRefresh (String c s)]
      match refreshed.1 with
      | Throws err => mkRun (Returns (failed err)) refreshed.2 []
      | Returns None =>
          if canRedirectRequest this request then
            after [Debug "Both access and refresh tokens are expired. Re-initiating SAML handshake."]
                  (authenticateViaHandshake this request refreshed.2)
          else
            mkRun (Returns (failed (Boom.badRequest "Both access and refresh tokens are expired.")))
                  refreshed.2 []
      | Returns (Some refreshedTokenPair) =>
          let authHeaders := mkAuthHeaders ("Bearer " +:+ pair_accessToken refreshedTokenPair) in
          let u := getUser_oracle this request (Some authHeaders) refreshed.2 in
          mkRun (Returns (resolved u.1 (fun user => succeeded user (Some authHeaders)
                                                              (Some (state_of_pair refreshedTokenPair)))))
                u.2
                [GetUser request (Some authHeaders);
                 resolved_log u.1 "Request has been authenticated via refreshed token."
                   "Failed to authenticate user using newly refreshed access token: "]
      end.
Proof.
  intros H refreshed. unfold authenticateViaRefreshToken. rewrite H.
  rewrite debug_then, try_catch_return_run, await_run. fold refreshed.
  cbn [outcome world trace].
  destruct refreshed.1 as [[refreshedTokenPair|]|err].
  - unfold try_catch, getUser. rewrite bind_run, await_run.
    cbn [outcome world trace].
    destruct (getUser_oracle _ _ _ _) as [[user|e] w']; reflexivity.
  - destruct (canRedirectRequest this request); [|reflexivity].
    rewrite debug_then. unfold after; simpl. reflexivity.
  - reflexivity.
Qed.

(** The strategy never throws, and announces itself first. *)
Lemma authenticateViaRefreshToken_returns request st w :
  exists result t,
    outcome (authenticateViaRefreshToken this request st w) = Returns result
    /\ trace (authenticateViaRefreshToken this request st w)
       = Debug (announcement ViaRefreshToken) :: t.
Proof.
  destruct (refreshToken st) as [[|c s]|] eqn:E.
  1,3: rewrite authenticateViaRefreshToken_no_token by (rewrite E; reflexivity);
       simpl; eauto.
  rewrite (authenticateViaRefreshToken_token _ _ _ _ _ E).
  destruct (tokens_refresh this (String c s) w).1 as [[refreshedTokenPair|]|err];
    [simpl; eauto| |simpl; eauto].
  destruct (canRedirectRequest this request); [|simpl; eauto].
  destruct (authenticateViaHandshake_returns this request
              (tokens_refresh this (String c s) w).2) as (result & t & Ho & _).
  unfold after; cbn [outcome trace app announcement]. rewrite Ho. eauto.
Qed.

End RefreshStrategy.

(** ** [authenticate] *)

Section Authenticate.

Context {W : Type} (this : Collaborators W).

Import AuthenticationResult.

Ltac reduce :=
  cbn [outcome world trace after headerNotRecognized authenticationResult
       is_notHandled is_failed resolved resolved_log fst snd app].

(** Without a header, a session whose access token the cluster rejects
    is refreshed when the rejection says that the token has expired, and
    only then; what is still not handled after that goes to the
    handshake. *)
Lemma authenticate_rejected_token request st w c tok err :
  authorization_header request = None ->
  accessToken st = Some (String c tok) ->
  let authHeaders := mkAuthHeaders ("Bearer " +:+ String c tok) in
  let u := getUser_oracle this request (Some authHeaders) w in
  u.1 = Throws err ->
  authenticate this request (Some st) w
  = after [Debug ("Trying to authenticate user request to " +:+ path (url request) +:+ ".");
           Debug "Trying to authenticate via header.";
           Debug "Authorization header is not presented.";
           Debug "Trying to authenticate via state.";
           GetUser request (Some authHeaders);
           Debug ("Failed to authenticate request via state: " +:+ Js.message err)]
      (if isAccessTokenExpiredError this err
       then (authenticateViaRefreshToken this request st
               ≫= fun r => if is_notHandled r
                           then authenticateViaHandshake this request
                           else mret r) u.2
       else mkRun (Returns (failed err)) u.2 []).
Proof.
  intros Hh Ht authHeaders u Hu.
  unfold authenticate. rewrite debug_then.
  rewrite bind_run, (authenticateViaHeader_absent this _ _ Hh). reduce.
  rewrite bind_run, bind_run, (authenticateViaState_token this _ _ _ _ _ Ht).
  fold authHeaders; fold u. rewrite Hu. reduce.
  destruct (isAccessTokenExpiredError this err).
  - rewrite bind_run.
    destruct (authenticateViaRefreshToken_returns this request st u.2)
      as (result & t & Ho & _).
    rewrite Ho. reduce. unfold after; reduce. reflexivity.
  - reflexivity.
Qed.

Lemma authenticate_unsupported_scheme request state w a :
  authorization_header request = Some a ->
  equals_ignoring_case (scheme_word a) "bearer" = false ->
  authenticate this request state w
  = mkRun (Returns notHandled) w
          [Debug ("Trying to authenticate user request to " +:+ path (url request) +:+ ".");
           Debug "Trying to authenticate via header.";
           Debug ("Unsupported authentication schema: " +:+ scheme_word a)].
Proof.
  intros Hh Hs. unfold authenticate. rewrite debug_then.
  rewrite bind_run, (authenticateViaHeader_unsupported this _ _ _ Hh Hs). reflexivity.
Qed.

Lemma authenticate_bearer request state w a :
  authorization_header request = Some a ->
  equals_ignoring_case (scheme_word a) "bearer" = true ->
  let u := getUser_oracle this request None w in
  authenticate this request state w
  = mkRun (Returns (resolved u.1 (fun user => succeeded user None None))) u.2
          [Debug ("Trying to authenticate user request to " +:+ path (url request) +:+ ".");
           Debug "Trying to authenticate via header.";
           GetUser request None;
           resolved_log u.1 "Request has been authenticated via header."
                        "Failed to authenticate request via header: "].
Proof.
  intros Hh Hs u. unfold authenticate. rewrite debug_then.
  rewrite bind_run, (authenticateViaHeader_bearer this _ _ _ Hh Hs). fold u. reduce.
  rewrite bind_run.
  destruct state as [st|]; destruct u.1 as [user|err]; reflexivity.
Qed.

(** C1. When the request carries an [Authorization] header, [authenticate]
    looks at its scheme word only.  If the word is [bearer] in any case
    of its letters, the header is a bearer credential: the user is
    resolved with the headers of the request, and the result is that
    user or the failure to resolve it.  If it is any other word, the
    result is [notHandled] at once: no collaborator is called, and
    neither the state, nor the refresh token, nor the handshake is
    tried. *)
Theorem authenticate_authorization_scheme request state w a :
  authorization_header request = Some a ->
  let r := authenticate this request state w in
  if equals_ignoring_case (scheme_word a) "bearer" then
    let u := getUser_oracle this request None w in
    outcome r = Returns match u.1 with
                        | Returns user => succeeded user None None
                        | Throws err => failed err
                        end
    /\ world r = u.2
    /\ calls (trace r) = [GetUser request None]
  else
    outcome r = Returns notHandled
    /\ world r = w
    /\ calls (trace r) = []
    /\ ~ attempted ViaState (trace r)
    /\ ~ attempted ViaRefreshToken (trace r)
    /\ ~ attempted ViaHandshake (trace r).
Proof.
  intros Hh r. subst r.
  destruct (equals_ignoring_case (scheme_word a) "bearer") eqn:Hs.
  - rewrite (authenticate_bearer _ state w _ Hh Hs). simpl.
    destruct (getUser_oracle this request None w).1; auto.
  - rewrite (authenticate_unsupported_scheme _ state w _ Hh Hs). simpl.
    repeat split; trivial; unfold attempted; simpl;
      intros [H|[H|[H|[]]]]; discriminate H.
Qed.

(** C7. When the cluster rejects the access token of the session,
    [authenticate] tries the refresh token if and only if the rejection
    is an expired-access-token error; any other failure is the result,
    as it is, and the token service is not called. *)
Theorem authenticate_refresh_iff_expired request st w c tok err :
  authorization_header request = None ->
  accessToken st = Some (String c tok) ->
  let authHeaders := mkAuthHeaders ("Bearer " +:+ String c tok) in
  let u := getUser_oracle this request (Some authHeaders) w in
  u.1 = Throws err ->
  let r := authenticate this request (Some st) w in
  (attempted ViaRefreshToken (trace r) <-> isAccessTokenExpiredError this err = true)
  /\ (isAccessTokenExpiredError this err = false ->
      outcome r = Returns (failed err)
      /\ world r = u.2
      /\ calls (trace r) = [GetUser request (Some authHeaders)])
  /\ (isAccessTokenExpiredError this err = true ->
      forall c' rtok, refreshToken st = Some (String c' rtok) ->
                      In (TokensRefresh (String c' rtok)) (trace r)).
Proof.
  intros Hh Ht authHeaders u Hu r. subst r.
  rewrite (authenticate_rejected_token _ _ _ _ _ _ Hh Ht Hu). fold authHeaders; fold u.
  destruct (isAccessTokenExpiredError this err).
  - split; [|split; [discriminate|intros _ c' rtok Hr]].
    + split; [reflexivity|intros _].
      rewrite bind_run.
      destruct (authenticateViaRefreshToken_returns this request st u.2)
        as (result & t & Ho & Htr).
      rewrite Ho. unfold after, attempted; reduce. rewrite Htr.
      do 6 right. left. reflexivity.
    + rewrite bind_run.
      destruct (authenticateViaRefreshToken_returns this request st u.2)
        as (result & t & Ho & _).
      rewrite Ho, (authenticateViaRefreshToken_token _ _ _ _ _ _ Hr).
      unfold after; reduce. do 7 right. left. reflexivity.
  - split; [|split; [intros _; repeat split|discriminate]].
    split; [|discriminate]. unfold attempted; simpl.
    intros [H|[H|[H|[H|[H|[H|[]]]]]]]; discriminate H.
Qed.


(** C10, as the provider has it.  When the cluster rejects the access
    token as expired and the state holds no refresh token, the refresh
    strategy does not handle the request, and the handshake is next:
    [notHandled] for a request that cannot be redirected; for one that
    can, the redirect to the identity provider when the cluster prepares
    the SAML request, and the failure of that call when it throws. *)
Theorem authenticate_expired_without_refresh_token request st w c tok err :
  authorization_header request = None ->
  accessToken st = Some (String c tok) ->
  let authHeaders := mkAuthHeaders ("Bearer " +:+ String c tok) in
  let u := getUser_oracle this request (Some authHeaders) w in
  u.1 = Throws err ->
  isAccessTokenExpiredError this err = true ->
  Js.truthy (refreshToken st) = false ->
  let r := authenticate this request (Some st) w in
  outcome (authenticateViaRefreshToken this request st u.2) = Returns notHandled
  /\ calls (trace (authenticateViaRefreshToken this request st u.2)) = []
  /\ attempted ViaHandshake (trace r)
  /\ if canRedirectRequest this request then
       let prepare := shield_samlPrepare (realmOrAcs this request) in
       let p := callAsInternalUser this prepare u.2 in
       outcome r = Returns match p.1 with
                           | Returns prepared =>
                               redirectTo (redirect prepared)
                                          (Some (handshake_state this request prepared))
                           | Throws e => failed e
                           end
       /\ world r = p.2
       /\ calls (trace r) = [GetUser request (Some authHeaders); CallAsInternalUser prepare]
     else
       outcome r = Returns notHandled
       /\ world r = u.2
       /\ calls (trace r) = [GetUser request (Some authHeaders)].
Proof.
  intros Hh Ht authHeaders u Hu He Hr r. subst r.
  rewrite (authenticate_rejected_token _ _ _ _ _ _ Hh Ht Hu), He.
  fold authHeaders; fold u.
  rewrite bind_run, (authenticateViaRefreshToken_no_token _ _ _ _ Hr). reduce.
  split; [reflexivity|split; [reflexivity|]].
  destruct (canRedirectRequest this request) eqn:Hc.
  - rewrite (authenticateViaHandshake_redirectable _ _ _ Hc).
    split; [unfold attempted; simpl; auto 10|]. cbv zeta.
    destruct (callAsInternalUser this _ u.2) as [[prepared|e] w']; simpl; auto.
  - rewrite (authenticateViaHandshake_ajax _ _ _ Hc).
    split; [unfold attempted; simpl; auto 10|]. simpl; auto.
Qed.

End Authenticate.

(** ** [login] *)

Section Login.

Context {W : Type} (this : Collaborators W).

Import AuthenticationResult.

Ltac reduce :=
  cbn [outcome world trace after is_notHandled is_failed resolved resolved_log
       fst snd app AuthenticationResult.state AuthenticationResult.user].

Lemma loginWithSAMLResponse_malformed request samlResponse st w :
  Js.truthy (requestId st) && Js.truthy (nextURL st) = false ->
  loginWithSAMLResponse this request samlResponse (Some st) w
  = mkRun (Returns (failed (Boom.badRequest malformed_state))) w
          [Debug "Trying to log in with SAML response payload.";
           Debug malformed_state].
Proof.
  intros H. unfold loginWithSAMLResponse. rewrite debug_then.
  cbn [Js.defined andb]. rewrite <- negb_andb, H. reflexivity.
Qed.

Lemma loginWithSAMLResponse_exchanges request samlResponse state w :
  handshake_pending state = true ->
  let exchange := shield_samlAuthenticate (correlation state) samlResponse in
  let x := callAsInternalUser this exchange w in
  loginWithSAMLResponse this request samlResponse state w
  = mkRun (Returns match x.1 with
                   | Returns tokens =>
                       redirectTo (landing this request state) (Some (session_state tokens))
                   | Throws err => failed err
                   end)
          x.2
          [Debug "Trying to log in with SAML response payload.";
           Debug (if Js.defined state
                  then "Login has been previously initiated by Kibana."
                  else "Login has been initiated by Identity Provider.");
           CallAsInternalUser exchange;
           match x.1 with
           | Returns _ => Debug "Login has been performed with SAML response."
           | Throws err => Debug ("Failed to log in with SAML response: " +:+ Js.message err)
           end].
Proof.
  unfold loginWithSAMLResponse, handshake_pending, landing, correlation.
  destruct state as [st|]; cbn [Js.defined andb mbind option_bind].
  - intros H. rewrite <- negb_andb, H. cbn [negb].
    destruct (requestId st) as [[|c1 s1]|]; try discriminate H.
    destruct (nextURL st) as [[|c2 s2]|]; try discriminate H.
    cbn [Js.truthy String.eqb negb Js.or_else].
    rewrite debug_then, debug_then. unfold try_catch, client_callAsInternalUser.
    rewrite bind_run, await_run. cbv zeta.
    destruct (callAsInternalUser this _ w) as [[tokens|err] w']; reflexivity.
  - intros _. cbn [Js.truthy String.eqb negb Js.or_else orb].
    rewrite debug_then, debug_then. unfold try_catch, client_callAsInternalUser.
    rewrite bind_run, await_run. cbv zeta.
    destruct (callAsInternalUser this _ w) as [[tokens|err] w']; reflexivity.
Qed.

(** C6. Whenever [loginWithSAMLResponse] exchanges the SAML response and
    the exchange succeeds, the result is a redirect to the [nextURL] of
    the state if there is one, and to the root under the base path
    otherwise; the state it carries is the new access and refresh token
    and nothing else: no [requestId], no [nextURL]. *)
Theorem loginWithSAMLResponse_success request samlResponse state w ids content tokens :
  let r := loginWithSAMLResponse this request samlResponse state w in
  In (CallAsInternalUser (shield_samlAuthenticate ids content)) (trace r) ->
  (callAsInternalUser this (shield_samlAuthenticate ids content) w).1 = Returns tokens ->
  outcome r
  = Returns (redirectTo
               match state ≫= nextURL with
               | Some nextURL => nextURL
               | None => basePath_get this request +:+ "/"
               end
               (Some (mkState (Some (access_token tokens)) (Some (refresh_token tokens))
                              None None)))
  /\ content = samlResponse
  /\ ids = match state ≫= requestId with
           | Some requestId => [requestId]
           | None => []
           end.
Proof.
  intros r Hin Hx. subst r.
  destruct (handshake_pending state) eqn:Hp.
  - rewrite (loginWithSAMLResponse_exchanges _ _ _ _ Hp) in Hin |- *.
    cbn [trace outcome] in Hin |- *.
    assert (CallAsInternalUser (shield_samlAuthenticate ids content)
            = CallAsInternalUser (shield_samlAuthenticate (correlation state) samlResponse))
      as Heq.
    { destruct Hin as [H|[H|[H|[H|[]]]]]; try discriminate H; [congruence|].
      destruct (callAsInternalUser this _ w).1; discriminate H. }
    injection Heq as -> ->.
    rewrite Hx. auto.
  - destruct state as [st|]; [|discriminate Hp].
    rewrite (loginWithSAMLResponse_malformed _ _ _ _ Hp) in Hin.
    destruct Hin as [H|[H|[]]]; discriminate H.
Qed.

(** The reconciliation of a new SAML response with a valid session, once
    the response is exchanged and its user resolved: the tokens of the
    old session are invalidated, and only then are the users compared. *)
Lemma loginWithNewSAMLResponse_reconciles request samlResponse existing user w
      tokens c tok newUser :
  let exchange := shield_samlAuthenticate [] samlResponse in
  let x := callAsInternalUser this exchange w in
  x.1 = Returns tokens ->
  access_token tokens = String c tok ->
  let authHeaders := mkAuthHeaders ("Bearer " +:+ access_token tokens) in
  let u := getUser_oracle this request (Some authHeaders) x.2 in
  u.1 = Returns newUser ->
  let invalidated :=
    tokens_invalidate this (accessToken existing) (refreshToken existing) u.2 in
  loginWithNewSAMLResponse this request samlResponse (Some existing) user w
  = mkRun (Returns match invalidated.1 with
                   | Throws err => failed err
                   | Returns _ =>
                       if same_user newUser user
                       then redirectTo (default_root this request) (Some (session_state tokens))
                       else redirectTo (basePath_get this request +:+ "/overwritten_session")
                                       (Some (session_state tokens))
                   end)
          invalidated.2
          [Debug "Trying to log in with SAML response payload and existing valid session.";
           Debug "Trying to log in with SAML response payload.";
           Debug "Login has been initiated by Identity Provider.";
           CallAsInternalUser exchange;
           Debug "Login has been performed with SAML response.";
           Debug "Trying to authenticate via state.";
           GetUser request (Some authHeaders);
           Debug "Request has been authenticated via state.";
           Debug "Perform IdP initiated local logout.";
           TokensInvalidate (accessToken existing) (refreshToken existing);
           match invalidated.1 with
           | Throws err =>
               Debug ("Failed to perform IdP initiated local logout: " +:+ Js.message err)
           | Returns _ =>
               if same_user newUser user
               then Debug "Login initiated by Identity Provider is for currently authenticated user."
               else Debug "Login initiated by Identity Provider is for a different user than currently authenticated."
           end].
Proof.
  intros exchange x Hx Ht authHeaders u Hu invalidated.
  unfold loginWithNewSAMLResponse. rewrite debug_then.
  rewrite bind_run, (loginWithSAMLResponse_exchanges request samlResponse None w eq_refl).
  change (correlation None) with (@nil string). fold exchange; fold x.
  rewrite Hx. reduce.
  assert (accessToken (session_state tokens) = Some (String c tok)) as Ha
      by (simpl; congruence).
  rewrite bind_run, (authenticateViaState_token this _ _ _ _ _ Ha).
  rewrite <- Ht. fold authHeaders; fold u. rewrite Hu. reduce.
  rewrite try_catch_return_run, debug_then, await_run. fold invalidated.
  unfold same_user.
  destruct invalidated.1 as [[]|err]; reduce; [|reflexivity].
  destruct (String.eqb (username newUser) (username user));
    destruct (String.eqb (name (authentication_realm newUser))
                         (name (authentication_realm user)));
    reflexivity.
Qed.

(** C3. In [loginWithNewSAMLResponse], once the SAML response is
    exchanged and its user resolved, the tokens of the old session are
    invalidated before the two users are compared; when the invalidation
    throws, the result is the failure with that error, whoever the two
    users are: they are not compared, and the new state is not in the
    result. *)
Theorem loginWithNewSAMLResponse_invalidates_first request samlResponse existing user w
        tokens c tok newUser :
  let exchange := shield_samlAuthenticate [] samlResponse in
  let x := callAsInternalUser this exchange w in
  x.1 = Returns tokens ->
  access_token tokens = String c tok ->
  let authHeaders := mkAuthHeaders ("Bearer " +:+ access_token tokens) in
  let u := getUser_oracle this request (Some authHeaders) x.2 in
  u.1 = Returns newUser ->
  let invalidation := TokensInvalidate (accessToken existing) (refreshToken existing) in
  let invalidated :=
    tokens_invalidate this (accessToken existing) (refreshToken existing) u.2 in
  let r := loginWithNewSAMLResponse this request samlResponse (Some existing) user w in
  (exists before final, trace r = (before ++ [invalidation; final])%list /\ ~ compared before)
  /\ forall err,
      invalidated.1 = Throws err ->
      outcome r = Returns (failed err)
      /\ world r = invalidated.2
      /\ calls (trace r) = [CallAsInternalUser exchange; GetUser request (Some authHeaders);
                            invalidation]
      /\ ~ compared (trace r).
Proof.
  intros exchange x Hx Ht authHeaders u Hu invalidation invalidated r. subst r.
  rewrite (loginWithNewSAMLResponse_reconciles _ _ _ _ _ _ _ _ _ Hx Ht Hu).
  fold exchange x authHeaders u invalidated invalidation. cbn [outcome world trace].
  split.
  - eexists (_ :: _ :: _ :: _ :: _ :: _ :: _ :: _ :: _ :: []), _.
    split; [reflexivity|].
    intros (verdict & Hv & Hin). simpl in Hv, Hin.
    destruct Hv as [<-|[<-|[]]]; repeat (destruct Hin as [Hin|Hin]; try discriminate Hin);
      destruct Hin.
  - intros err He. rewrite He. repeat split.
    intros (verdict & Hv & Hin). simpl in Hv, Hin.
    destruct Hv as [<-|[<-|[]]]; repeat (destruct Hin as [Hin|Hin]; try discriminate Hin);
      destruct Hin.
Qed.

(** C5. In [loginWithNewSAMLResponse], once the SAML response is
    exchanged, its user resolved and the tokens of the old session
    invalidated: if the new user differs from the user of the session by
    the username or by the name of the authentication realm, the result
    is the redirect to the overwritten session page with the new state;
    if not, the result is the result of the exchange itself, the
    redirect to the root with the new token pair. *)
Theorem loginWithNewSAMLResponse_compares_users request samlResponse existing user w
        tokens c tok newUser :
  let exchange := shield_samlAuthenticate [] samlResponse in
  let x := callAsInternalUser this exchange w in
  x.1 = Returns tokens ->
  access_token tokens = String c tok ->
  let authHeaders := mkAuthHeaders ("Bearer " +:+ access_token tokens) in
  let u := getUser_oracle this request (Some authHeaders) x.2 in
  u.1 = Returns newUser ->
  let invalidated :=
    tokens_invalidate this (accessToken existing) (refreshToken existing) u.2 in
  invalidated.1 = Returns tt ->
  let newState := mkState (Some (access_token tokens)) (Some (refresh_token tokens))
                          None None in
  let exchanged := loginWithSAMLResponse this request samlResponse None w in
  let r := loginWithNewSAMLResponse this request samlResponse (Some existing) user w in
  outcome exchanged = Returns (redirectTo (basePath_get this request +:+ "/") (Some newState))
  /\ (username newUser <> username user
      \/ name (authentication_realm newUser) <> name (authentication_realm user) ->
      outcome r = Returns (redirectTo (basePath_get this request +:+ "/overwritten_session")
                                      (Some newState)))
  /\ (username newUser = username user
      /\ name (authentication_realm newUser) = name (authentication_realm user) ->
      outcome r = outcome exchanged).
Proof.
  intros exchange x Hx Ht authHeaders u Hu invalidated Hi newState exchanged r.
  subst r exchanged.
  rewrite (loginWithNewSAMLResponse_reconciles _ _ _ _ _ _ _ _ _ Hx Ht Hu).
  rewrite (loginWithSAMLResponse_exchanges request samlResponse None w eq_refl).
  change (correlation None) with (@nil string).
  fold exchange x authHeaders u invalidated. rewrite Hx, Hi. cbn [outcome].
  split; [reflexivity|]. unfold same_user. split.
  - intros [Hn|Hn]; apply String.eqb_neq in Hn; rewrite Hn;
      [|rewrite andb_false_r]; reflexivity.
  - intros [-> ->]. rewrite !String.eqb_refl. reflexivity.
Qed.

(** C2, as the provider has it.  For a state without an access token
    that misses the request id or the redirect URL, and not both,
    [login] fails with a bad request; the cluster is not asked. *)
Theorem login_malformed_state request attempt st w :
  Js.truthy (accessToken st) = false ->
  xorb (Js.truthy (requestId st)) (Js.truthy (nextURL st)) = true ->
  let r := login this request attempt (Some st) w in
  outcome r
  = Returns (failed (Boom.badRequest
      "SAML response state does not have corresponding request id or redirect URL."))
  /\ world r = w
  /\ calls (trace r) = [].
Proof.
  intros Ha Hx r. subst r.
  unfold login. cbv zeta. rewrite debug_then.
  rewrite bind_run, (authenticateViaState_no_token _ _ _ _ Ha). reduce.
  rewrite loginWithSAMLResponse_malformed; [repeat split|].
  destruct (Js.truthy (requestId st)), (Js.truthy (nextURL st)); try discriminate Hx;
    reflexivity.
Qed.

End Login.

(** ** [logout] *)

Section Logout.

Context {W : Type} (this : Collaborators W).

Import DeauthenticationResult.

(** What [logout] makes of the completion of the single logout. *)
Lemma logout_single_logout request state w :
  negb (Js.truthy (state ≫= accessToken)) && negb (isSAMLRequestQuery (query request)) = false ->
  let path : M W (option string) :=
    if isSAMLRequestQuery (query request)
    then performIdPInitiatedSingleLogout this request
    else match state with
         | Some st => performUserInitiatedSingleLogout this (accessToken st) (refreshToken st)
         | None => throw (Js.mkError Js.TypeError
                                     "Cannot read property 'accessToken' of undefined")
         end in
  outcome (logout this request state w)
  = Returns match outcome (path w) with
            | Returns (Some redirect) => redirectTo redirect
            | Returns None => redirectTo "/logged_out"
            | Throws err => failed err
            end.
Proof.
  intros H path. unfold logout. rewrite debug_then, H. fold path.
  unfold try_catch. rewrite bind_run.
  destruct (outcome (path w)) as [[redirect|]|err]; reflexivity.
Qed.

(** The two single logouts complete as the call to the cluster they make:
    they return the [redirect] it answers with, and throw what it throws. *)
Lemma performIdPInitiatedSingleLogout_completes request w :
  let invalidate :=
    shield_samlInvalidate match search (url request) with
                          | Some (String _ queryString) => queryString
                          | _ => ""
                          end
                          (realmOrAcs this request) in
  let x := callAsInternalUser this invalidate w in
  outcome (performIdPInitiatedSingleLogout this request w) = x.1
  /\ world (performIdPInitiatedSingleLogout this request w) = x.2.
Proof.
  unfold performIdPInitiatedSingleLogout, client_callAsInternalUser.
  rewrite debug_then, bind_run, await_run. cbv zeta.
  assert (match search (url request) with
          | Some (String _ _ as search) => Js.slice1 search
          | _ => ""
          end
          = match search (url request) with
            | Some (String _ queryString) => queryString
            | _ => ""
            end) as -> by (destruct (search (url request)) as [[|c q]|]; reflexivity).
  destruct (callAsInternalUser this _ w) as [[redirect|err] w']; split; reflexivity.
Qed.

Lemma performUserInitiatedSingleLogout_completes accessToken refreshToken w :
  let x := callAsInternalUser this (shield_samlLogout accessToken refreshToken) w in
  outcome (performUserInitiatedSingleLogout this accessToken refreshToken w) = x.1
  /\ world (performUserInitiatedSingleLogout this accessToken refreshToken w) = x.2.
Proof.
  unfold performUserInitiatedSingleLogout, client_callAsInternalUser.
  rewrite debug_then, bind_run, await_run. cbv zeta.
  destruct (callAsInternalUser this _ w) as [[redirect|err] w']; split; reflexivity.
Qed.

(** C8. [logout] does not handle the request if and only if the state
    has no access token and the query of the request has no
    [SAMLRequest].  Otherwise it makes one call to the cluster:
    [shield.samlInvalidate], with the search of the URL without its first
    character and the realm or the ACS, when the query has a
    [SAMLRequest], and [shield.samlLogout], with the two tokens of the
    state, when it has none.  When that call does not throw, the result
    is the redirect to the very URL the cluster answered with, or to
    [/logged_out] when it answered with none. *)
Theorem logout_result request state w :
  let r := logout this request state w in
  (outcome r = Returns notHandled
   <-> Js.truthy (state ≫= accessToken) = false
       /\ isSAMLRequestQuery (query request) = false)
  /\ (forall redirect,
        isSAMLRequestQuery (query request) = true ->
        let invalidate :=
          shield_samlInvalidate match search (url request) with
                                | Some (String _ queryString) => queryString
                                | _ => ""
                                end
                                (realmOrAcs this request) in
        let x := callAsInternalUser this invalidate w in
        x.1 = Returns redirect ->
        outcome r = Returns match redirect with
                            | Some url => redirectTo url
                            | None => redirectTo "/logged_out"
                            end)
  /\ (forall st redirect,
        isSAMLRequestQuery (query request) = false ->
        state = Some st ->
        Js.truthy (accessToken st) = true ->
        let x := callAsInternalUser this
                   (shield_samlLogout (accessToken st) (refreshToken st)) w in
        x.1 = Returns redirect ->
        outcome r = Returns match redirect with
                            | Some url => redirectTo url
                            | None => redirectTo "/logged_out"
                            end).
Proof.
  intros r. subst r. split; [split|split].
  - intros H.
    destruct (negb (Js.truthy (state ≫= accessToken))
              && negb (isSAMLRequestQuery (query request))) eqn:E.
    + apply andb_prop in E as [E1 E2].
      apply negb_true_iff in E1, E2. by split.
    + rewrite (logout_single_logout _ _ _ E) in H.
      destruct (outcome _) as [[redirect|]|err]; discriminate H.
  - intros [Ha Hq]. unfold logout. rewrite debug_then, Ha, Hq. reflexivity.
  - intros redirect Hq invalidate x Hx.
    rewrite logout_single_logout by (rewrite Hq; apply andb_false_r).
    rewrite Hq.
    destruct (performIdPInitiatedSingleLogout_completes request w) as [-> _].
    fold invalidate; fold x. rewrite Hx. destruct redirect; reflexivity.
  - intros st redirect Hq -> Ha x Hx.
    rewrite logout_single_logout by (simpl; rewrite Ha; reflexivity).
    rewrite Hq.
    destruct (performUserInitiatedSingleLogout_completes
                (accessToken st) (refreshToken st) w) as [-> _].
    fold x. rewrite Hx. destruct redirect; reflexivity.
Qed.

(** C9. [logout] never throws: it completes with a result for every
    request, state and world, and an error thrown by the single logout
    it performs, the one initiated by the identity provider or the one
    initiated by the user, is the failure it results in. *)
Theorem logout_never_throws request state w :
  let r := logout this request state w in
  (exists result, outcome r = Returns result)
  /\ (forall err,
        isSAMLRequestQuery (query request) = true ->
        outcome (performIdPInitiatedSingleLogout this request w) = Throws err ->
        outcome r = Returns (failed err))
  /\ (forall st err,
        isSAMLRequestQuery (query request) = false ->
        state = Some st ->
        Js.truthy (accessToken st) = true ->
        outcome (performUserInitiatedSingleLogout this (accessToken st) (refreshToken st) w)
        = Throws err ->
        outcome r = Returns (failed err)).
Proof.
  intros r. subst r. split; [|split].
  - destruct (negb (Js.truthy (state ≫= accessToken))
              && negb (isSAMLRequestQuery (query request))) eqn:E.
    + unfold logout. rewrite debug_then, E. eexists. reflexivity.
    + rewrite (logout_single_logout _ _ _ E). eauto.
  - intros err Hq Hp.
    rewrite logout_single_logout by (rewrite Hq; apply andb_false_r).
    rewrite Hq, Hp. reflexivity.
  - intros st err Hq -> Ha Hp.
    rewrite logout_single_logout by (simpl; rewrite Ha; reflexivity).
    rewrite Hq, Hp. reflexivity.
Qed.

End Logout.

(** ** The theorems on the concrete deployment *)

Import AuthenticationResult.

(** C1 on [BEARER abc], a bearer credential, and on [Basic dXNlcg==],
    which stops the chain although a session is there. *)
Lemma authenticate_authorization_scheme_witness :
  (let r := authenticate Example.all_well (Example.request (Some "BEARER abc") None)
                         (Some Example.session) 0 in
   outcome r = Returns (succeeded Example.alice None None)
   /\ world r = 1
   /\ calls (trace r) = [GetUser (Example.request (Some "BEARER abc") None) None])
  /\ (let r := authenticate Example.all_well (Example.request (Some "Basic dXNlcg==") None)
                            (Some Example.session) 0 in
      outcome r = Returns notHandled
      /\ world r = 0
      /\ calls (trace r) = []
      /\ ~ attempted ViaState (trace r)
      /\ ~ attempted ViaRefreshToken (trace r)
      /\ ~ attempted ViaHandshake (trace r)).
Proof.
  split.
  - exact (authenticate_authorization_scheme
             Example.all_well (Example.request (Some "BEARER abc") None)
             (Some Example.session) 0 "BEARER abc" eq_refl).
  - exact (authenticate_authorization_scheme
             Example.all_well (Example.request (Some "Basic dXNlcg==") None)
             (Some Example.session) 0 "Basic dXNlcg==" eq_refl).
Defined.

(** C7 on a session whose token the cluster cannot check, and on one
    whose token has expired. *)
Lemma authenticate_refresh_iff_expired_witness :
  (let r := authenticate Example.users_unavailable (Example.request None None)
                         (Some Example.session) 0 in
   outcome r = Returns (failed Example.unavailable)
   /\ ~ attempted ViaRefreshToken (trace r))
  /\ (let r := authenticate (Example.tokens_expired false) (Example.request None None)
                            (Some Example.session) 0 in
      attempted ViaRefreshToken (trace r)
      /\ In (TokensRefresh "refresh-1") (trace r)).
Proof.
  split.
  - destruct (authenticate_refresh_iff_expired
                Example.users_unavailable (Example.request None None) Example.session 0
                "a" "ccess-1" Example.unavailable eq_refl eq_refl eq_refl)
      as (Hiff & Hother & _).
    split.
    + apply Hother. reflexivity.
    + intros H. apply Hiff in H. discriminate H.
  - destruct (authenticate_refresh_iff_expired
                (Example.tokens_expired false) (Example.request None None) Example.session 0
                "a" "ccess-1" Example.expired eq_refl eq_refl eq_refl)
      as (Hiff & _ & Hexpired).
    split.
    + apply Hiff. reflexivity.
    + apply (Hexpired eq_refl "r"%char "efresh-1"). reflexivity.
Defined.



(** C10, as amended, on a session without a refresh token: an AJAX request
    is not handled, a request of the browser starts a handshake. *)
Lemma authenticate_expired_without_refresh_token_witness :
  (let r := authenticate (Example.tokens_expired false) (Example.request None None)
                         (Some Example.session_without_refresh) 0 in
   outcome r = Returns notHandled /\ attempted ViaHandshake (trace r))
  /\ (let r := authenticate (Example.tokens_expired true) (Example.request None None)
                            (Some Example.session_without_refresh) 0 in
      outcome r = Returns (redirectTo "https://idp.test/sso"
                                      (Some (mkState None None (Some "request-1")
                                                     (Some "/kbn/app/home"))))).
Proof.
  split.
  - destruct (authenticate_expired_without_refresh_token
                (Example.tokens_expired false) (Example.request None None)
                Example.session_without_refresh 0 "a" "ccess-1" Example.expired
                eq_refl eq_refl eq_refl eq_refl eq_refl)
      as (_ & _ & Ha & Ho & _).
    split; [exact Ho|exact Ha].
  - destruct (authenticate_expired_without_refresh_token
                (Example.tokens_expired true) (Example.request None None)
                Example.session_without_refresh 0 "a" "ccess-1" Example.expired
                eq_refl eq_refl eq_refl eq_refl eq_refl)
      as (_ & _ & _ & Ho & _).
    exact Ho.
Defined.

(** C10 as it is stated does not hold: the access token has expired, the
    state has no refresh token and the request can be redirected, yet the
    result is not a redirect but the failure of the cluster that does not
    prepare the SAML request. *)
Lemma expired_without_refresh_token_handshake_fails :
  refreshToken Example.session_without_refresh = None
  /\ canRedirectRequest Example.tokens_expired_cluster_down (Example.request None None) = true
  /\ attempted ViaRefreshToken
       (trace (authenticate Example.tokens_expired_cluster_down (Example.request None None)
                            (Some Example.session_without_refresh) 0))
  /\ outcome (authenticate Example.tokens_expired_cluster_down (Example.request None None)
                           (Some Example.session_without_refresh) 0)
     = Returns (failed Example.unavailable).
Proof.
  split; [reflexivity|]. split; [reflexivity|]. split; [|reflexivity].
  vm_compute. auto 10.
Qed.

(** C2, as amended, on a handshake state that lost its redirect URL. *)
Lemma login_malformed_state_witness :
  let r := login Example.all_well (Example.request None None) (mkLoginAttempt "PHNhbWw+")
                 (Some Example.handshake_without_nextURL) 0 in
  outcome r
  = Returns (failed (Boom.badRequest
      "SAML response state does not have corresponding request id or redirect URL."))
  /\ world r = 0
  /\ calls (trace r) = [].
Proof.
  exact (login_malformed_state Example.all_well (Example.request None None)
                               (mkLoginAttempt "PHNhbWw+")
                               Example.handshake_without_nextURL 0 eq_refl eq_refl).
Defined.

(** C2 as it is stated does not hold: a state with the request id of a
    handshake and no redirect URL, but with the access token of a valid
    session, does not make [login] fail; the SAML response is exchanged
    and the browser is sent to the root. *)
Lemma login_valid_session_not_malformed :
  requestId Example.session_with_requestId = Some "request-1"
  /\ nextURL Example.session_with_requestId = None
  /\ outcome (login Example.all_well (Example.request None None) (mkLoginAttempt "PHNhbWw+")
                    (Some Example.session_with_requestId) 0)
     = Returns (redirectTo "/kbn/"
                           (Some (mkState (Some "access-2") (Some "refresh-2") None None))).
Proof. repeat split; reflexivity. Qed.

(** C6 on the SAML response that completes a handshake, and on one that
    the identity provider sends on its own. *)
Lemma loginWithSAMLResponse_success_witness :
  outcome (loginWithSAMLResponse Example.all_well (Example.request None None) "PHNhbWw+"
                                 (Some Example.handshake) 0)
  = Returns (redirectTo "/kbn/app/home"
                        (Some (mkState (Some "access-2") (Some "refresh-2") None None)))
  /\ outcome (loginWithSAMLResponse Example.all_well (Example.request None None) "PHNhbWw+"
                                    None 0)
     = Returns (redirectTo "/kbn/"
                           (Some (mkState (Some "access-2") (Some "refresh-2") None None))).
Proof.
  split.
  - apply (loginWithSAMLResponse_success
             Example.all_well (Example.request None None) "PHNhbWw+" (Some Example.handshake) 0
             ["request-1"] "PHNhbWw+" (mkSamlAuthenticateResponse "access-2" "refresh-2")).
    + vm_compute. auto.
    + reflexivity.
  - apply (loginWithSAMLResponse_success
             Example.all_well (Example.request None None) "PHNhbWw+" None 0
             [] "PHNhbWw+" (mkSamlAuthenticateResponse "access-2" "refresh-2")).
    + vm_compute. auto.
    + reflexivity.
Defined.

(** C3 on a token service that does not invalidate the tokens of the old
    session: the failure is the result, for bob as for alice. *)
Lemma loginWithNewSAMLResponse_invalidates_first_witness :
  let r := loginWithNewSAMLResponse Example.invalidation_fails (Example.request None None)
                                    "PHNhbWw+" (Some Example.session) Example.bob 0 in
  outcome r = Returns (failed Example.unavailable)
  /\ world r = 3
  /\ ~ compared (trace r).
Proof.
  destruct (loginWithNewSAMLResponse_invalidates_first
              Example.invalidation_fails (Example.request None None) "PHNhbWw+"
              Example.session Example.bob 0
              (mkSamlAuthenticateResponse "access-2" "refresh-2") "a" "ccess-2" Example.alice
              eq_refl eq_refl eq_refl)
    as (_ & H).
  destruct (H Example.unavailable eq_refl) as (Ho & Hw & _ & Hc).
  split; [exact Ho|split; [exact Hw|exact Hc]].
Defined.

(** C5 on the SAML response of alice, in the session of bob and in her
    own. *)
Lemma loginWithNewSAMLResponse_compares_users_witness :
  outcome (loginWithNewSAMLResponse Example.all_well (Example.request None None)
                                    "PHNhbWw+" (Some Example.session) Example.bob 0)
  = Returns (redirectTo "/kbn/overwritten_session"
                        (Some (mkState (Some "access-2") (Some "refresh-2") None None)))
  /\ outcome (loginWithNewSAMLResponse Example.all_well (Example.request None None)
                                       "PHNhbWw+" (Some Example.session) Example.alice 0)
     = Returns (redirectTo "/kbn/"
                           (Some (mkState (Some "access-2") (Some "refresh-2") None None))).
Proof.
  split.
  - destruct (loginWithNewSAMLResponse_compares_users
                Example.all_well (Example.request None None) "PHNhbWw+"
                Example.session Example.bob 0
                (mkSamlAuthenticateResponse "access-2" "refresh-2") "a" "ccess-2" Example.alice
                eq_refl eq_refl eq_refl eq_refl)
      as (_ & Hdiffer & _).
    apply Hdiffer. left. discriminate.
  - destruct (loginWithNewSAMLResponse_compares_users
                Example.all_well (Example.request None None) "PHNhbWw+"
                Example.session Example.alice 0
                (mkSamlAuthenticateResponse "access-2" "refresh-2") "a" "ccess-2" Example.alice
                eq_refl eq_refl eq_refl eq_refl)
      as (Hexchanged & _ & Hsame).
    etransitivity; [apply Hsame; split; reflexivity|exact Hexchanged].
Defined.

Import DeauthenticationResult.

(** C8 on a request without a session; on the logout of a session, with
    and without a URL from the cluster; and on a logout the identity
    provider asks for, with and without a URL from the cluster, the first
    on top of a session. *)
Lemma logout_result_witness :
  outcome (logout Example.all_well (Example.request None None) None 0) = Returns notHandled
  /\ outcome (logout Example.all_well (Example.request None None) (Some Example.session) 0)
     = Returns (redirectTo "https://idp.test/slo")
  /\ outcome (logout Deployment.idp_single_logout (Example.request None None)
                     (Some Example.session) 0)
     = Returns (redirectTo "/logged_out")
  /\ outcome (logout Deployment.idp_single_logout Deployment.idp_logout_request
                     (Some Example.session) 0)
     = Returns (redirectTo "https://idp.test/slo?SAMLRequest=fZJBT4Mw")
  /\ outcome (logout Example.all_well (Example.request None (Some "fZJBT4Mw")) None 0)
     = Returns (redirectTo "/logged_out").
Proof.
  split; [|split; [|split; [|split]]].
  - apply (logout_result Example.all_well (Example.request None None) None 0).
    split; reflexivity.
  - apply (proj2 (proj2 (logout_result Example.all_well (Example.request None None)
                                       (Some Example.session) 0))
                 Example.session (Some "https://idp.test/slo"));
      reflexivity.
  - apply (proj2 (proj2 (logout_result Deployment.idp_single_logout
                                       (Example.request None None)
                                       (Some Example.session) 0))
                 Example.session None);
      reflexivity.
  - apply (proj1 (proj2 (logout_result Deployment.idp_single_logout
                                       Deployment.idp_logout_request
                                       (Some Example.session) 0))
                 (Some "https://idp.test/slo?SAMLRequest=fZJBT4Mw"));
      reflexivity.
  - apply (proj1 (proj2 (logout_result Example.all_well
                                       (Example.request None (Some "fZJBT4Mw")) None 0))
                 None);
      reflexivity.
Defined.

(** C9 on a cluster that is down, for the logout of a session and for a
    logout the identity provider asks for. *)
Lemma logout_never_throws_witness :
  outcome (logout Example.cluster_down (Example.request None None) (Some Example.session) 0)
  = Returns (failed Example.unavailable)
  /\ outcome (logout Example.cluster_down (Example.request None (Some "fZJBT4Mw")) None 0)
     = Returns (failed Example.unavailable).
Proof.
  split.
  - apply (proj2 (proj2 (logout_never_throws Example.cluster_down (Example.request None None)
                                             (Some Example.session) 0))
                 Example.session Example.unavailable);
      reflexivity.
  - apply (proj1 (proj2 (logout_never_throws Example.cluster_down
                                             (Example.request None (Some "fZJBT4Mw")) None 0))
                 Example.unavailable);
      reflexivity.
Defined.

(** ** What the methods keep *)

Section Keeping.

Context {W : Type}.

Lemma keeps_ret {A} ok (a : A) (Q : A -> Prop) E :
  Q a -> keeps (W := W) ok (mret a) Q E.
Proof. intros H w. split; [constructor|exact H]. Qed.

Lemma keeps_throw {A} ok e (Q : A -> Prop) (E : Js.Error -> Prop) :
  E e -> keeps (W := W) ok (throw e) Q E.
Proof. intros H w. split; [constructor|exact H]. Qed.

Lemma keeps_bind {A B} ok (m : M W A) (k : A -> M W B) Q1 Q E :
  keeps ok m Q1 E ->
  (forall a, Q1 a -> keeps ok (k a) Q E) ->
  keeps ok (m ≫= k) Q E.
Proof.
  intros Hm Hk w. rewrite bind_run.
  destruct (Hm w) as [Ht Ho].
  destruct (outcome (m w)) as [a|e].
  - destruct (Hk a Ho (world (m w))) as [Ht' Ho'].
    split; [apply Forall_app; split; assumption|exact Ho'].
  - split; assumption.
Qed.

Lemma keeps_debug {A} ok msg (k : M W A) Q E :
  ok (Debug msg) ->
  keeps ok k Q E ->
  keeps ok (logger_debug msg ≫= fun _ => k) Q E.
Proof.
  intros Hd Hk w. rewrite debug_then.
  destruct (Hk w) as [Ht Ho]. split; [constructor; assumption|exact Ho].
Qed.

Lemma keeps_await {A} ok ev (call : W -> Outcome A * W) (Q : A -> Prop) (E : Js.Error -> Prop) :
  ok ev -> (forall a, Q a) -> (forall e, E e) ->
  keeps ok (await ev call) Q E.
Proof.
  intros Hev HQ HE w. rewrite await_run. split; [repeat constructor; exact Hev|].
  simpl. destruct (call w).1; auto.
Qed.

Lemma keeps_try_catch {A} ok (body : M W A) handler Q E1 E :
  keeps ok body Q E1 ->
  (forall e, E1 e -> keeps ok (handler e) Q E) ->
  keeps ok (try_catch body handler) Q E.
Proof.
  intros Hb Hh w. unfold try_catch.
  destruct (Hb w) as [Ht Ho].
  destruct (outcome (body w)) as [a|e] eqn:Eo.
  - split; [exact Ht|rewrite Eo; exact Ho].
  - destruct (Hh e Ho (world (body w))) as [Ht' Ho'].
    split; [apply Forall_app; split; assumption|exact Ho'].
Qed.

Lemma keeps_try_catch_return {A B} ok (body : M W A) handler (rest : A -> M W B) Q1 E1 Q E :
  keeps ok body Q1 E1 ->
  (forall e, E1 e -> keeps ok (handler e) Q E) ->
  (forall a, Q1 a -> keeps ok (rest a) Q E) ->
  keeps ok (try_catch_return body handler rest) Q E.
Proof.
  intros Hb Hh Hr w. rewrite try_catch_return_run.
  destruct (Hb w) as [Ht Ho].
  destruct (outcome (body w)) as [a|e].
  - destruct (Hr a Ho (world (body w))) as [Ht' Ho'].
    split; [apply Forall_app; split; assumption|exact Ho'].
  - destruct (Hh e Ho (world (body w))) as [Ht' Ho'].
    split; [apply Forall_app; split; assumption|exact Ho'].
Qed.

Lemma keeps_weaken {A} (ok ok' : Event -> Prop) (m : M W A) (Q Q' : A -> Prop) E E' :
  keeps ok m Q E ->
  (forall ev, ok ev -> ok' ev) -> (forall a, Q a -> Q' a) -> (forall e, E e -> E' e) ->
  keeps ok' m Q' E'.
Proof.
  intros Hm Hok HQ HE w. destruct (Hm w) as [Ht Ho]. split.
  - eapply Forall_impl; [exact Ht|exact Hok].
  - destruct (outcome (m w)); auto.
Qed.

End Keeping.

Section KeepingAuthenticate.

Context {W : Type} (this : Collaborators W).

Import AuthenticationResult.

Ltac log := apply keeps_debug; [exact I|].

Ltac resolves_user :=
  eapply keeps_try_catch with (E1 := any_error);
  [ eapply keeps_bind with (Q1 := fun _ => True);
    [ apply keeps_await; [reflexivity|exact (fun _ => I)|exact (fun _ => I)]
    | intros user _; log; apply keeps_ret ]
  | intros err _; log; apply keeps_ret ].

Lemma authenticateViaHeader_keeps request :
  keeps (authenticate_event this request) (authenticateViaHeader this request)
        (fun h => authenticate_outcome (authenticationResult h))
        no_error.
Proof.
  unfold authenticateViaHeader. log.
  destruct (headers request !! "authorization") as [[[|c s]|l]|];
    try (log; apply keeps_ret; exact I).
  destruct (negb _).
  - log. apply keeps_ret. exact I.
  - resolves_user; exact I.
Qed.

(** The state strategy handles a request with a success that stores
    nothing, or with a failure. *)
Lemma authenticateViaState_keeps request ok st :
  (forall msg, ok (Debug msg)) ->
  (forall authHeaders, ok (GetUser request authHeaders)) ->
  keeps ok (authenticateViaState this request st)
        (fun r => AuthenticationResult.state r = None /\ is_redirected r = false)
        no_error.
Proof.
  intros Hd Hg. unfold authenticateViaState.
  apply keeps_debug; [apply Hd|].
  destruct (accessToken st) as [[|c s]|];
    try (apply keeps_debug; [apply Hd|]; apply keeps_ret; split; reflexivity).
  eapply keeps_try_catch with (E1 := any_error).
  - eapply keeps_bind with (Q1 := fun _ => True).
    + apply keeps_await; [apply Hg|exact (fun _ => I)|exact (fun _ => I)].
    + intros user _. apply keeps_debug; [apply Hd|]. apply keeps_ret. split; reflexivity.
  - intros err _. apply keeps_debug; [apply Hd|]. apply keeps_ret. split; reflexivity.
Qed.

Lemma authenticateViaHandshake_keeps request :
  keeps (authenticate_event this request) (authenticateViaHandshake this request)
        authenticate_outcome no_error.
Proof.
  unfold authenticateViaHandshake. log.
  destruct (negb _).
  - log. apply keeps_ret. exact I.
  - eapply keeps_try_catch with (E1 := any_error).
    + eapply keeps_bind with (Q1 := fun _ => True).
      * apply keeps_await; [reflexivity|exact (fun _ => I)|exact (fun _ => I)].
      * intros prepared _. log. apply keeps_ret. eexists _, _. reflexivity.
    + intros err _. log. apply keeps_ret. exact I.
Qed.

Lemma authenticateViaRefreshToken_keeps request st :
  keeps (authenticate_event this request) (authenticateViaRefreshToken this request st)
        authenticate_outcome no_error.
Proof.
  unfold authenticateViaRefreshToken. log.
  destruct (refreshToken st) as [[|c s]|];
    try (log; apply keeps_ret; exact I).
  eapply keeps_try_catch_return with (Q1 := fun _ => True) (E1 := any_error).
  - apply keeps_await; [exact I|exact (fun _ => I)|exact (fun _ => I)].
  - intros err _. apply keeps_ret. exact I.
  - intros [refreshedTokenPair|] _.
    + resolves_user; [|exact I].
      split; [eexists; reflexivity|eexists _, _; reflexivity].
    + destruct (canRedirectRequest this request).
      * log. apply authenticateViaHandshake_keeps.
      * apply keeps_ret. exact I.
Qed.

Lemma authenticate_keeps request state :
  keeps (authenticate_event this request) (authenticate this request state)
        authenticate_outcome no_error.
Proof.
  unfold authenticate. log.
  eapply keeps_bind; [apply authenticateViaHeader_keeps|].
  intros viaHeader Hs. cbv beta in Hs.
  destruct (headerNotRecognized viaHeader); [apply keeps_ret; exact Hs|].
  eapply keeps_bind with (Q1 := authenticate_outcome).
  - destruct state as [st|]; [|apply keeps_ret; exact Hs].
    destruct (is_notHandled (authenticationResult viaHeader)); [|apply keeps_ret; exact Hs].
    eapply keeps_bind.
    + apply authenticateViaState_keeps; [exact (fun _ => I)|reflexivity].
    + intros r [Hr Hd]. cbv beta in Hr, Hd.
      destruct r as [|user authHeaders st'|err|url st']; simpl in Hr, Hd.
      * apply keeps_ret. exact I.
      * subst st'. apply keeps_ret. exact I.
      * destruct (isAccessTokenExpiredError this err); [|apply keeps_ret; exact I].
        apply authenticateViaRefreshToken_keeps.
      * discriminate Hd.
  - intros r Hr. destruct (is_notHandled r); [|apply keeps_ret; exact Hr].
    apply authenticateViaHandshake_keeps.
Qed.

End KeepingAuthenticate.

Section KeepingLogin.

Context {W : Type} (this : Collaborators W).

Import AuthenticationResult.

Ltac log := apply keeps_debug; [exact I|].

Lemma loginWithSAMLResponse_keeps request samlResponse state :
  keeps (login_event request samlResponse)
        (loginWithSAMLResponse this request samlResponse state)
        login_outcome no_error.
Proof.
  unfold loginWithSAMLResponse. log. cbv zeta.
  destruct (Js.defined state && _).
  - log. apply keeps_ret. exact I.
  - log.
    eapply keeps_try_catch with (E1 := any_error).
    + eapply keeps_bind with (Q1 := fun _ => True).
      * apply keeps_await; [reflexivity|exact (fun _ => I)|exact (fun _ => I)].
      * intros tokens _. log. apply keeps_ret. eexists _, _. reflexivity.
    + intros err _. log. apply keeps_ret. exact I.
Qed.

Lemma loginWithNewSAMLResponse_keeps request samlResponse existingState user :
  keeps (login_event request samlResponse)
        (loginWithNewSAMLResponse this request samlResponse existingState user)
        login_outcome no_error.
Proof.
  unfold loginWithNewSAMLResponse. log.
  eapply keeps_bind; [apply loginWithSAMLResponse_keeps|].
  intros payload Hp.
  destruct (is_failed payload); [apply keeps_ret; exact Hp|].
  destruct (AuthenticationResult.state payload) as [newState|] eqn:Hs;
    [|apply keeps_ret; exact I].
  assert (session_shape newState) as Hn.
  { destruct payload as [|? ? ?|?|url [st|]]; simpl in Hp, Hs;
      try contradiction; try discriminate Hs.
    injection Hs as <-. exact Hp. }
  eapply keeps_bind.
  - apply authenticateViaState_keeps; [exact (fun _ => I)|reflexivity].
  - intros r _.
    destruct (is_failed r) eqn:Hf;
      [destruct r; try discriminate Hf; apply keeps_ret; exact I|].
    destruct (AuthenticationResult.user r) as [newUser|]; [|apply keeps_ret; exact I].
    eapply keeps_try_catch_return with (Q1 := fun _ => True) (E1 := any_error).
    + log. destruct existingState as [existing|].
      * apply keeps_await; [exact I|exact (fun _ => I)|exact (fun _ => I)].
      * apply keeps_throw. exact I.
    + intros err _. log. apply keeps_ret. exact I.
    + intros _ _. destruct (negb _ || negb _); log; apply keeps_ret.
      * exact Hn.
      * exact Hp.
Qed.

Lemma login_keeps request attempt state :
  keeps (login_event request (samlResponse attempt)) (login this request attempt state)
        login_outcome no_error.
Proof.
  unfold login. cbv zeta. log.
  eapply keeps_bind with
    (Q1 := fun r => AuthenticationResult.state r = None /\ is_redirected r = false).
  - destruct state as [st|].
    + apply authenticateViaState_keeps; [exact (fun _ => I)|reflexivity].
    + apply keeps_ret. split; reflexivity.
  - intros r [_ Hd].
    destruct r as [|user authHeaders st'|err|url st']; try discriminate Hd.
    + apply loginWithSAMLResponse_keeps.
    + apply loginWithNewSAMLResponse_keeps.
    + log. apply keeps_ret. exact I.
Qed.

End KeepingLogin.

(** ** More on [authenticate] *)

Section AuthenticateFurther.

Context {W : Type} (this : Collaborators W).

Import AuthenticationResult.

Ltac reduce :=
  cbn [outcome world trace after headerNotRecognized authenticationResult
       is_notHandled is_failed resolved resolved_log fst snd app].

(** X1. [authenticate] never throws: whatever the request, the state and
    the collaborators do, it completes with a result.  A success that
    stores a state stores a token pair and comes with authorization
    headers; a redirect always stores the request id and the redirect URL
    of a handshake, and nothing else. *)
Theorem authenticate_resolves request state w :
  exists result,
    outcome (authenticate this request state w) = Returns result
    /\ authenticate_outcome result.
Proof.
  destruct (authenticate_keeps this request state w) as [_ H].
  destruct (outcome (authenticate this request state w)) as [result|err].
  - exists result. split; [reflexivity|exact H].
  - destruct H.
Qed.

(** X2. Whatever happens, [authenticate] only logs, resolves the user of
    the request at hand, refreshes a token, and prepares a SAML request
    for the realm, or else the ACS, of the provider: it never exchanges a
    SAML response, never invalidates tokens and never logs out. *)
Theorem authenticate_events request state w :
  Forall (authenticate_event this request) (trace (authenticate this request state w)).
Proof. apply (authenticate_keeps this request state w). Qed.

(** Without a header and without an access token in the state, the
    handshake is all that is left. *)
Lemma authenticate_no_token request state w :
  authorization_header request = None ->
  Js.truthy (state ≫= accessToken) = false ->
  authenticate this request state w
  = after ([Debug ("Trying to authenticate user request to " +:+ path (url request) +:+ ".");
            Debug "Trying to authenticate via header.";
            Debug "Authorization header is not presented."]
             ++ if Js.defined state
                then [Debug "Trying to authenticate via state.";
                      Debug "Access token is not found in state."]
                else [])%list
          (authenticateViaHandshake this request w).
Proof.
  intros Hh Ht. unfold authenticate. rewrite debug_then.
  rewrite bind_run, (authenticateViaHeader_absent this _ _ Hh). reduce.
  rewrite bind_run.
  destruct state as [st|]; reduce.
  - rewrite bind_run, (authenticateViaState_no_token this _ _ _ Ht). reduce.
    unfold after; reduce. reflexivity.
  - unfold after; reduce. reflexivity.
Qed.

Lemma authenticate_accepted_token request st w c tok user :
  authorization_header request = None ->
  accessToken st = Some (String c tok) ->
  let authHeaders := mkAuthHeaders ("Bearer " +:+ String c tok) in
  let u := getUser_oracle this request (Some authHeaders) w in
  u.1 = Returns user ->
  authenticate this request (Some st) w
  = mkRun (Returns (succeeded user (Some authHeaders) None)) u.2
          [Debug ("Trying to authenticate user request to " +:+ path (url request) +:+ ".");
           Debug "Trying to authenticate via header.";
           Debug "Authorization header is not presented.";
           Debug "Trying to authenticate via state.";
           GetUser request (Some authHeaders);
           Debug "Request has been authenticated via state."].
Proof.
  intros Hh Ht authHeaders u Hu. unfold authenticate. rewrite debug_then.
  rewrite bind_run, (authenticateViaHeader_absent this _ _ Hh). reduce.
  rewrite bind_run, bind_run, (authenticateViaState_token this _ _ _ _ _ Ht).
  fold authHeaders; fold u. rewrite Hu. reflexivity.
Qed.

(** X3. Without an [Authorization] header, a session whose access token
    the cluster accepts is authenticated with that token alone: the
    result is the user with the bearer header of the token and no state
    to store, the user lookup is the only call, and neither the refresh
    token nor the handshake is tried. *)
Theorem authenticate_valid_session request st w c tok user :
  authorization_header request = None ->
  accessToken st = Some (String c tok) ->
  let authHeaders := mkAuthHeaders ("Bearer " +:+ String c tok) in
  let u := getUser_oracle this request (Some authHeaders) w in
  u.1 = Returns user ->
  let r := authenticate this request (Some st) w in
  outcome r = Returns (succeeded user (Some authHeaders) None)
  /\ world r = u.2
  /\ calls (trace r) = [GetUser request (Some authHeaders)]
  /\ ~ attempted ViaRefreshToken (trace r)
  /\ ~ attempted ViaHandshake (trace r).
Proof.
  intros Hh Ht authHeaders u Hu r. subst r.
  rewrite (authenticate_accepted_token _ _ _ _ _ _ Hh Ht Hu).
  repeat split; unfold attempted; simpl;
    intros [H|[H|[H|[H|[H|[H|[]]]]]]]; discriminate H.
Qed.

(** X4. When the access token has expired and the token service answers
    the refresh with a new pair, the user is resolved with the new access
    token: the result is that user with the bearer header of the new
    token and the new pair as the state to store.  When the cluster
    rejects the new token too, the result is that failure, and the new
    pair is not stored.  The handshake is not tried either way. *)
Theorem authenticate_refreshes request st w c tok err c' rtok refreshedTokenPair :
  authorization_header request = None ->
  accessToken st = Some (String c tok) ->
  let authHeaders := mkAuthHeaders ("Bearer " +:+ String c tok) in
  let u := getUser_oracle this request (Some authHeaders) w in
  u.1 = Throws err ->
  isAccessTokenExpiredError this err = true ->
  refreshToken st = Some (String c' rtok) ->
  let refreshed := tokens_refresh this (String c' rtok) u.2 in
  refreshed.1 = Returns (Some refreshedTokenPair) ->
  let newHeaders := mkAuthHeaders ("Bearer " +:+ pair_accessToken refreshedTokenPair) in
  let u' := getUser_oracle this request (Some newHeaders) refreshed.2 in
  let r := authenticate this request (Some st) w in
  outcome r
  = Returns match u'.1 with
            | Returns user =>
                succeeded user (Some newHeaders)
                          (Some (mkState (Some (pair_accessToken refreshedTokenPair))
                                         (Some (pair_refreshToken refreshedTokenPair))
                                         None None))
            | Throws err' => failed err'
            end
  /\ world r = u'.2
  /\ calls (trace r) = [GetUser request (Some authHeaders);
                        TokensRefresh (String c' rtok);
                        GetUser request (Some newHeaders)]
  /\ ~ attempted ViaHandshake (trace r).
Proof.
  intros Hh Ht authHeaders u Hu He Hr refreshed Hp newHeaders u' r. subst r.
  rewrite (authenticate_rejected_token _ _ _ _ _ _ _ Hh Ht Hu), He.
  fold authHeaders; fold u.
  rewrite bind_run, (authenticateViaRefreshToken_token _ _ _ _ _ _ Hr).
  fold refreshed. rewrite Hp. cbv zeta. fold newHeaders; fold u'.
  destruct u'.1 as [user|err']; (repeat split; unfold attempted; simpl;
    intros H; repeat (destruct H as [H|H]; try discriminate H); destruct H).
Qed.

(** X5. When the access token has expired and the token service throws
    on the refresh, the result is the failure with what it threw; the
    handshake is not tried, even for a request that can be redirected. *)
Theorem authenticate_refresh_throws request st w c tok err c' rtok err' :
  authorization_header request = None ->
  accessToken st = Some (String c tok) ->
  let authHeaders := mkAuthHeaders ("Bearer " +:+ String c tok) in
  let u := getUser_oracle this request (Some authHeaders) w in
  u.1 = Throws err ->
  isAccessTokenExpiredError this err = true ->
  refreshToken st = Some (String c' rtok) ->
  let refreshed := tokens_refresh this (String c' rtok) u.2 in
  refreshed.1 = Throws err' ->
  let r := authenticate this request (Some st) w in
  outcome r = Returns (failed err')
  /\ world r = refreshed.2
  /\ calls (trace r) = [GetUser request (Some authHeaders); TokensRefresh (String c' rtok)]
  /\ ~ attempted ViaHandshake (trace r).
Proof.
  intros Hh Ht authHeaders u Hu He Hr refreshed Hp r. subst r.
  rewrite (authenticate_rejected_token _ _ _ _ _ _ _ Hh Ht Hu), He.
  fold authHeaders; fold u.
  rewrite bind_run, (authenticateViaRefreshToken_token _ _ _ _ _ _ Hr).
  fold refreshed. rewrite Hp.
  repeat split; unfold attempted; simpl;
    intros H; repeat (destruct H as [H|H]; try discriminate H); destruct H.
Qed.

(** X6. Without an [Authorization] header and without an access token in
    the state, be there no state or a state without one, [authenticate]
    is the handshake.  A request that cannot be redirected is not handled,
    and the cluster is not called.  For one that can, the cluster prepares
    a SAML request for the realm or the ACS: the result is the redirect to
    where the cluster says, storing the request id it gave and, as the
    redirect URL, the base path followed by the path of the request; when
    the call throws, the result is that failure. *)
Theorem authenticate_starts_handshake request state w :
  authorization_header request = None ->
  Js.truthy (state ≫= accessToken) = false ->
  let r := authenticate this request state w in
  if canRedirectRequest this request then
    let prepare := shield_samlPrepare (realmOrAcs this request) in
    let p := callAsInternalUser this prepare w in
    outcome r
    = Returns match p.1 with
              | Returns prepared =>
                  redirectTo (redirect prepared)
                             (Some (mkState None None (Some (id prepared))
                                      (Some (basePath_get this request +:+ path (url request)))))
              | Throws err => failed err
              end
    /\ world r = p.2
    /\ calls (trace r) = [CallAsInternalUser prepare]
  else
    outcome r = Returns notHandled
    /\ world r = w
    /\ calls (trace r) = [].
Proof.
  intros Hh Ht r. subst r.
  rewrite (authenticate_no_token _ _ _ Hh Ht).
  destruct (canRedirectRequest this request) eqn:Hc.
  - rewrite (authenticateViaHandshake_redirectable _ _ _ Hc). cbv zeta.
    destruct (callAsInternalUser this _ w) as [[prepared|err] w'];
      destruct state; simpl; auto.
  - rewrite (authenticateViaHandshake_ajax _ _ _ Hc).
    destruct state; simpl; auto.
Qed.

Ltac absurd_in H :=
  repeat (destruct H as [H|H]; try discriminate H); try destruct H.

Lemma bind_trace_in {A B} (m : M W A) (k : A -> M W B) w ev :
  In ev (trace ((m ≫= k) w)) ->
  In ev (trace (m w))
  \/ exists a, outcome (m w) = Returns a /\ In ev (trace (k a (world (m w)))).
Proof.
  rewrite bind_run. destruct (outcome (m w)) as [a|e]; cbn [trace after].
  - intros H. apply in_app_or in H as [H|H]; [left; exact H|right; eauto].
  - auto.
Qed.

Lemma authenticateViaHandshake_no_refresh request w rt :
  ~ In (TokensRefresh rt) (trace (authenticateViaHandshake this request w)).
Proof.
  destruct (canRedirectRequest this request) eqn:Hc.
  - rewrite (authenticateViaHandshake_redirectable _ _ _ Hc). cbv zeta. simpl.
    destruct (callAsInternalUser this (shield_samlPrepare (realmOrAcs this request)) w)
      as [[prepared|err] w']; intros H; absurd_in H.
  - rewrite (authenticateViaHandshake_ajax _ _ _ Hc). intros H; absurd_in H.
Qed.

Lemma authenticateViaRefreshToken_refresh_event request st w rt :
  In (TokensRefresh rt) (trace (authenticateViaRefreshToken this request st w)) ->
  refreshToken st = Some rt.
Proof.
  destruct (refreshToken st) as [[|c s]|] eqn:Hr.
  1,3: rewrite authenticateViaRefreshToken_no_token by (rewrite Hr; reflexivity);
       intros H; absurd_in H.
  rewrite (authenticateViaRefreshToken_token _ _ _ _ _ _ Hr). cbv zeta.
  cbn [trace after app]. intros [H|[H|H]]; [discriminate H|congruence|exfalso].
  destruct (tokens_refresh this (String c s) w).1 as [[pair|]|err].
  - cbn [trace] in H. destruct (getUser_oracle _ _ _ _).1; absurd_in H.
  - destruct (canRedirectRequest this request).
    + cbn [trace after app] in H. destruct H as [H|H]; [discriminate H|].
      exact (authenticateViaHandshake_no_refresh _ _ _ H).
    + destruct H.
  - destruct H.
Qed.

(** X7. [authenticate] sends a refresh token to the token service only
    when the request has no [Authorization] header, the token is the
    refresh token of the state, and the cluster rejected the access token
    of that state with an expired-access-token error. *)
Theorem authenticate_refresh_only_if request state w rt :
  In (TokensRefresh rt) (trace (authenticate this request state w)) ->
  authorization_header request = None
  /\ exists st c tok err,
      state = Some st
      /\ refreshToken st = Some rt
      /\ accessToken st = Some (String c tok)
      /\ (getUser_oracle this request (Some (mkAuthHeaders ("Bearer " +:+ String c tok))) w).1
         = Throws err
      /\ isAccessTokenExpiredError this err = true.
Proof.
  intros Hin.
  destruct (authorization_header request) as [a|] eqn:Hh.
  { exfalso. destruct (equals_ignoring_case (scheme_word a) "bearer") eqn:Hs.
    - rewrite (authenticate_bearer this _ state w _ Hh Hs) in Hin. cbn [trace] in Hin.
      destruct (getUser_oracle this request None w).1; absurd_in Hin.
    - rewrite (authenticate_unsupported_scheme this _ state w _ Hh Hs) in Hin.
      absurd_in Hin. }
  split; [reflexivity|].
  destruct (Js.truthy (state ≫= accessToken)) eqn:Ht.
  - destruct state as [st|]; [|discriminate Ht]. simpl in Ht.
    destruct (accessToken st) as [[|c tok]|] eqn:Ha; try discriminate Ht.
    destruct (getUser_oracle this request (Some (mkAuthHeaders ("Bearer " +:+ String c tok))) w).1
      as [user|err] eqn:Hu.
    + exfalso. rewrite (authenticate_accepted_token _ _ _ _ _ _ Hh Ha Hu) in Hin.
      absurd_in Hin.
    + rewrite (authenticate_rejected_token _ _ _ _ _ _ _ Hh Ha Hu) in Hin.
      destruct (isAccessTokenExpiredError this err) eqn:He.
      * exists st, c, tok, err. repeat split; try assumption.
        cbn [trace after app] in Hin.
        do 6 (destruct Hin as [Hin|Hin]; [discriminate Hin|]).
        apply bind_trace_in in Hin as [Hin|(r & _ & Hin)].
        -- exact (authenticateViaRefreshToken_refresh_event _ _ _ _ Hin).
        -- exfalso. destruct (is_notHandled r).
           ++ exact (authenticateViaHandshake_no_refresh _ _ _ Hin).
           ++ destruct Hin.
      * exfalso. absurd_in Hin.
  - exfalso. rewrite (authenticate_no_token _ _ _ Hh Ht) in Hin.
    cbn [trace after] in Hin. apply in_app_or in Hin as [Hin|Hin].
    + destruct state; absurd_in Hin.
    + exact (authenticateViaHandshake_no_refresh _ _ _ Hin).
Qed.

Lemma same_letter_bearer_not_whitespace (c l : ascii) :
  In l (list_ascii_of_string "bearer") ->
  same_letter c l = true ->
  Js.is_whitespace c = false.
Proof.
  simpl. intros H.
  repeat (destruct H as [<-|H];
          [destruct c as [[] [] [] [] [] [] [] []]; vm_compute; intros E;
           first [reflexivity|discriminate E]|]).
  destruct H.
Qed.

Lemma append_String (c : ascii) (s t : string) :
  String c s +:+ t = String c (s +:+ t).
Proof. reflexivity. Qed.

Lemma append_empty_r (s : string) : s +:+ "" = s.
Proof.
  induction s as [|c s IH]; [reflexivity|].
  rewrite append_String, IH. reflexivity.
Qed.

Lemma scheme_word_app (word lower tail : string) :
  (forall c l, In l (list_ascii_of_string lower) -> same_letter c l = true ->
               Js.is_whitespace c = false) ->
  equals_ignoring_case word lower = true ->
  scheme_word (word +:+ tail) = word +:+ scheme_word tail.
Proof.
  intros Hl. revert lower Hl. induction word as [|c word IH]; intros [|l lower] Hl H;
    simpl in H |- *; try discriminate H; [reflexivity|].
  apply andb_prop in H as [Hc Hw].
  rewrite (Hl c l) by (simpl; auto). rewrite append_String. f_equal.
  apply (IH lower); [|exact Hw]. intros c' l' Hin. apply Hl. simpl; auto.
Qed.

Lemma equals_ignoring_case_longer (word lower : string) c rest :
  equals_ignoring_case word lower = true ->
  equals_ignoring_case (word +:+ String c rest) lower = false.
Proof.
  revert lower. induction word as [|c' word IH]; intros [|l lower] H;
    simpl in H |- *; try discriminate H; [reflexivity|].
  apply andb_prop in H as [-> Hw]. simpl. apply IH, Hw.
Qed.

(** X8. A header that begins with [bearer], in any case of its letters,
    is a bearer credential exactly when nothing or a whitespace follows
    the word: the credentials themselves are not looked at, and [Bearer]
    alone is passed on to the cluster like any other.  When something
    else follows the word, the header is of another scheme: the request
    is not handled and nothing is called. *)
Theorem authenticate_bearer_credentials request state w word tail :
  equals_ignoring_case word "bearer" = true ->
  authorization_header request = Some (word +:+ tail) ->
  let r := authenticate this request state w in
  let u := getUser_oracle this request None w in
  if match tail with
     | EmptyString => true
     | String c _ => Js.is_whitespace c
     end
  then
    outcome r = Returns match u.1 with
                        | Returns user => succeeded user None None
                        | Throws err => failed err
                        end
    /\ world r = u.2
    /\ calls (trace r) = [GetUser request None]
  else
    outcome r = Returns notHandled
    /\ world r = w
    /\ calls (trace r) = [].
Proof.
  intros Hw Hh r u. subst r.
  pose proof (scheme_word_app word "bearer" tail same_letter_bearer_not_whitespace Hw) as Hs.
  destruct tail as [|c rest]; [|destruct (Js.is_whitespace c) eqn:Hc].
  - assert (equals_ignoring_case (scheme_word (word +:+ "")) "bearer" = true) as Hb.
    { rewrite Hs. simpl. rewrite append_empty_r. exact Hw. }
    rewrite (authenticate_bearer this _ state w _ Hh Hb). fold u. simpl.
    destruct u.1; auto.
  - assert (equals_ignoring_case (scheme_word (word +:+ String c rest)) "bearer" = true) as Hb.
    { rewrite Hs. simpl. rewrite Hc, append_empty_r. exact Hw. }
    rewrite (authenticate_bearer this _ state w _ Hh Hb). fold u. simpl.
    destruct u.1; auto.
  - assert (equals_ignoring_case (scheme_word (word +:+ String c rest)) "bearer" = false) as Hb.
    { rewrite Hs. simpl. rewrite Hc. apply equals_ignoring_case_longer, Hw. }
    rewrite (authenticate_unsupported_scheme this _ state w _ Hh Hb). simpl. auto.
Qed.

(** X18. A request with an [Authorization] header is authenticated
    without the session: whatever the state, the run of [authenticate]
    is the same, result, world and trace. *)
Theorem authenticate_header_ignores_state request state state' w a :
  authorization_header request = Some a ->
  authenticate this request state w = authenticate this request state' w.
Proof.
  intros Hh. destruct (equals_ignoring_case (scheme_word a) "bearer") eqn:Hs.
  - rewrite (authenticate_bearer this _ state w _ Hh Hs).
    rewrite (authenticate_bearer this _ state' w _ Hh Hs). reflexivity.
  - rewrite (authenticate_unsupported_scheme this _ state w _ Hh Hs).
    rewrite (authenticate_unsupported_scheme this _ state' w _ Hh Hs). reflexivity.
Qed.

End AuthenticateFurther.

(** ** More on [login] *)

Section LoginFurther.

Context {W : Type} (this : Collaborators W).

Import AuthenticationResult.

Ltac reduce :=
  cbn [outcome world trace after is_notHandled is_failed resolved resolved_log
       fst snd app AuthenticationResult.state AuthenticationResult.user].

Ltac absurd_in H :=
  repeat (destruct H as [H|H]; try discriminate H); try destruct H.

(** X9. [login] never throws, and always handles the request: whatever
    the request, the SAML response, the state and the collaborators do,
    it completes with a failure or with a redirect, and a redirect always
    stores a token pair and nothing of a handshake. *)
Theorem login_resolves request attempt state w :
  exists result,
    outcome (login this request attempt state w) = Returns result
    /\ login_outcome result.
Proof.
  destruct (login_keeps this request attempt state w) as [_ H].
  destruct (outcome (login this request attempt state w)) as [result|err].
  - exists result. split; [reflexivity|exact H].
  - destruct H.
Qed.

(** X10. Whatever happens, [login] only logs, resolves the user of the
    request at hand, exchanges the SAML response of the attempt, and
    invalidates a token pair: it never refreshes a token, never prepares
    a SAML request and never logs out at the identity provider. *)
Theorem login_events request attempt state w :
  Forall (login_event request (samlResponse attempt))
         (trace (login this request attempt state w)).
Proof. apply (login_keeps this request attempt state w). Qed.

Lemma login_no_token request attempt state w :
  Js.truthy (state ≫= accessToken) = false ->
  login this request attempt state w
  = after ([Debug "Trying to perform a login."]
             ++ if Js.defined state
                then [Debug "Trying to authenticate via state.";
                      Debug "Access token is not found in state."]
                else [])%list
          (loginWithSAMLResponse this request (samlResponse attempt) state w).
Proof.
  intros Ht. unfold login. cbv zeta. rewrite debug_then, bind_run.
  destruct state as [st|]; reduce.
  - rewrite (authenticateViaState_no_token this _ _ _ Ht). reduce.
    unfold after; reduce. reflexivity.
  - unfold after; reduce. reflexivity.
Qed.

(** X11. When the state holds an access token that the cluster rejects,
    for whatever reason, [login] fails with that rejection as it is: the
    SAML response is not exchanged, and the token is not refreshed. *)
Theorem login_rejected_session request attempt st w c tok err :
  accessToken st = Some (String c tok) ->
  let authHeaders := mkAuthHeaders ("Bearer " +:+ String c tok) in
  let u := getUser_oracle this request (Some authHeaders) w in
  u.1 = Throws err ->
  let r := login this request attempt (Some st) w in
  outcome r = Returns (failed err)
  /\ world r = u.2
  /\ calls (trace r) = [GetUser request (Some authHeaders)].
Proof.
  intros Ht authHeaders u Hu r. subst r.
  unfold login. cbv zeta. rewrite debug_then, bind_run.
  rewrite (authenticateViaState_token this _ _ _ _ _ Ht). fold authHeaders; fold u.
  rewrite Hu. repeat split.
Qed.

(** X12. Without an access token in the state, [login] turns on the
    handshake the state tells of.  With no state at all, or with a state
    that has a request id and a redirect URL, both non-empty, the SAML
    response is exchanged, with that request id if there is one: the
    result is the redirect to that URL, or to the root under the base
    path, storing the new token pair, or the failure of the exchange as it
    was thrown.  With any other state, an empty one too, [login] fails
    with a bad request and the cluster is not called. *)
Theorem login_without_session request attempt state w :
  Js.truthy (state ≫= accessToken) = false ->
  let r := login this request attempt state w in
  if match state with
     | Some st => Js.truthy (requestId st) && Js.truthy (nextURL st)
     | None => true
     end
  then
    let exchange :=
      shield_samlAuthenticate match state ≫= requestId with
                              | Some requestId => [requestId]
                              | None => []
                              end
                              (samlResponse attempt) in
    let x := callAsInternalUser this exchange w in
    outcome r
    = Returns match x.1 with
              | Returns tokens =>
                  redirectTo match state ≫= nextURL with
                             | Some nextURL => nextURL
                             | None => basePath_get this request +:+ "/"
                             end
                             (Some (mkState (Some (access_token tokens))
                                            (Some (refresh_token tokens)) None None))
              | Throws err => failed err
              end
    /\ world r = x.2
    /\ calls (trace r) = [CallAsInternalUser exchange]
  else
    outcome r
    = Returns (failed (Boom.badRequest
        "SAML response state does not have corresponding request id or redirect URL."))
    /\ world r = w
    /\ calls (trace r) = [].
Proof.
  intros Ht r. subst r. rewrite (login_no_token _ _ _ _ Ht).
  destruct (handshake_pending state) eqn:Hp; unfold handshake_pending in Hp; rewrite Hp.
  - rewrite (loginWithSAMLResponse_exchanges this request _ state w Hp).
    unfold correlation, landing, default_root. cbv zeta.
    destruct (callAsInternalUser this _ w) as [[tokens|err] w'];
      destruct state; simpl; auto.
  - destruct state as [st|]; [|discriminate Hp].
    rewrite (loginWithSAMLResponse_malformed this _ _ _ _ Hp). simpl; auto.
Qed.

(** X13. The handshake that [authenticate] starts on a first visit and
    the [login] that completes it fit together: given a non-empty request
    id from the cluster, a [login] with the state of that handshake sends
    the SAML response with exactly that request id, and on success sends
    the browser back to where it was, the base path followed by the path
    of the first request, storing the new token pair. *)
Theorem handshake_login_round_trip request w prepared request' attempt w' :
  authorization_header request = None ->
  canRedirectRequest this request = true ->
  (callAsInternalUser this (shield_samlPrepare (realmOrAcs this request)) w).1
  = Returns prepared ->
  id prepared <> "" ->
  basePath_get this request +:+ path (url request) <> "" ->
  exists st,
    outcome (authenticate this request None w)
    = Returns (redirectTo (redirect prepared) (Some st))
    /\ let exchange := shield_samlAuthenticate [id prepared] (samlResponse attempt) in
       let x := callAsInternalUser this exchange w' in
       let r := login this request' attempt (Some st) w' in
       outcome r
       = Returns match x.1 with
                 | Returns tokens =>
                     redirectTo (basePath_get this request +:+ path (url request))
                                (Some (mkState (Some (access_token tokens))
                                               (Some (refresh_token tokens)) None None))
                 | Throws err => failed err
                 end
       /\ calls (trace r) = [CallAsInternalUser exchange].
Proof.
  intros Hh Hc Hp Hid Hurl.
  exists (handshake_state this request prepared). split.
  - rewrite (authenticate_no_token this _ None _ Hh eq_refl).
    rewrite (authenticateViaHandshake_redirectable _ _ _ Hc). cbv zeta.
    cbn [outcome after]. rewrite Hp. reflexivity.
  - cbv zeta.
    rewrite (login_no_token _ _ (Some (handshake_state this request prepared)) _ eq_refl).
    assert (handshake_pending (Some (handshake_state this request prepared)) = true) as Hpend.
    { simpl. destruct (id prepared) as [|c s]; [contradiction|].
      destruct (basePath_get this request +:+ path (url request)); [contradiction|].
      reflexivity. }
    rewrite (loginWithSAMLResponse_exchanges this request' _ _ w' Hpend).
    unfold correlation, landing. cbv zeta. simpl.
    destruct (callAsInternalUser this _ w') as [[tokens|err] w'']; simpl; auto.
Qed.

(** The reconciliation stops at the first step that does not go through. *)
Lemma loginWithNewSAMLResponse_exchange_fails request samlResponse existingState user w err :
  let exchange := shield_samlAuthenticate [] samlResponse in
  let x := callAsInternalUser this exchange w in
  x.1 = Throws err ->
  loginWithNewSAMLResponse this request samlResponse existingState user w
  = mkRun (Returns (failed err)) x.2
          [Debug "Trying to log in with SAML response payload and existing valid session.";
           Debug "Trying to log in with SAML response payload.";
           Debug "Login has been initiated by Identity Provider.";
           CallAsInternalUser exchange;
           Debug ("Failed to log in with SAML response: " +:+ Js.message err)].
Proof.
  intros exchange x Hx.
  unfold loginWithNewSAMLResponse. rewrite debug_then.
  rewrite bind_run, (loginWithSAMLResponse_exchanges this request samlResponse None w eq_refl).
  change (correlation None) with (@nil string). fold exchange; fold x.
  rewrite Hx. reflexivity.
Qed.

Lemma loginWithNewSAMLResponse_no_access_token request samlResponse existingState user w
      tokens :
  let exchange := shield_samlAuthenticate [] samlResponse in
  let x := callAsInternalUser this exchange w in
  x.1 = Returns tokens ->
  access_token tokens = "" ->
  loginWithNewSAMLResponse this request samlResponse existingState user w
  = mkRun (Returns (failed (Js.new_Error
             "Could not retrieve user information using tokens produced for the SAML payload.")))
          x.2
          [Debug "Trying to log in with SAML response payload and existing valid session.";
           Debug "Trying to log in with SAML response payload.";
           Debug "Login has been initiated by Identity Provider.";
           CallAsInternalUser exchange;
           Debug "Login has been performed with SAML response.";
           Debug "Trying to authenticate via state.";
           Debug "Access token is not found in state."].
Proof.
  intros exchange x Hx Ht.
  unfold loginWithNewSAMLResponse. rewrite debug_then.
  rewrite bind_run, (loginWithSAMLResponse_exchanges this request samlResponse None w eq_refl).
  change (correlation None) with (@nil string). fold exchange; fold x.
  rewrite Hx. reduce.
  rewrite bind_run, authenticateViaState_no_token by (simpl; rewrite Ht; reflexivity).
  reflexivity.
Qed.

Lemma loginWithNewSAMLResponse_user_unresolved request samlResponse existingState user w
      tokens c tok err :
  let exchange := shield_samlAuthenticate [] samlResponse in
  let x := callAsInternalUser this exchange w in
  x.1 = Returns tokens ->
  access_token tokens = String c tok ->
  let authHeaders := mkAuthHeaders ("Bearer " +:+ access_token tokens) in
  let u := getUser_oracle this request (Some authHeaders) x.2 in
  u.1 = Throws err ->
  loginWithNewSAMLResponse this request samlResponse existingState user w
  = mkRun (Returns (failed err)) u.2
          [Debug "Trying to log in with SAML response payload and existing valid session.";
           Debug "Trying to log in with SAML response payload.";
           Debug "Login has been initiated by Identity Provider.";
           CallAsInternalUser exchange;
           Debug "Login has been performed with SAML response.";
           Debug "Trying to authenticate via state.";
           GetUser request (Some authHeaders);
           Debug ("Failed to authenticate request via state: " +:+ Js.message err)].
Proof.
  intros exchange x Hx Ht authHeaders u Hu.
  unfold loginWithNewSAMLResponse. rewrite debug_then.
  rewrite bind_run, (loginWithSAMLResponse_exchanges this request samlResponse None w eq_refl).
  change (correlation None) with (@nil string). fold exchange; fold x.
  rewrite Hx. reduce.
  assert (accessToken (session_state tokens) = Some (String c tok)) as Ha
      by (simpl; congruence).
  rewrite bind_run, (authenticateViaState_token this _ _ _ _ _ Ha).
  rewrite <- Ht. fold authHeaders; fold u. rewrite Hu. reflexivity.
Qed.

Lemma loginWithNewSAMLResponse_no_existing_state request samlResponse user w
      tokens c tok newUser :
  let exchange := shield_samlAuthenticate [] samlResponse in
  let x := callAsInternalUser this exchange w in
  x.1 = Returns tokens ->
  access_token tokens = String c tok ->
  let authHeaders := mkAuthHeaders ("Bearer " +:+ access_token tokens) in
  let u := getUser_oracle this request (Some authHeaders) x.2 in
  u.1 = Returns newUser ->
  calls (trace (loginWithNewSAMLResponse this request samlResponse None user w))
  = [CallAsInternalUser exchange; GetUser request (Some authHeaders)].
Proof.
  intros exchange x Hx Ht authHeaders u Hu.
  unfold loginWithNewSAMLResponse. rewrite debug_then.
  rewrite bind_run, (loginWithSAMLResponse_exchanges this request samlResponse None w eq_refl).
  change (correlation None) with (@nil string). fold exchange; fold x.
  rewrite Hx. reduce.
  assert (accessToken (session_state tokens) = Some (String c tok)) as Ha
      by (simpl; congruence).
  rewrite bind_run, (authenticateViaState_token this _ _ _ _ _ Ha).
  rewrite <- Ht. fold authHeaders; fold u. rewrite Hu. reflexivity.
Qed.

(** X14. [loginWithNewSAMLResponse] invalidates tokens only once the new
    SAML response is exchanged and the user of the new tokens resolved,
    and the tokens it invalidates are those of the existing state: a
    session is not torn down for a SAML response that the cluster
    rejects, or whose tokens do not resolve to a user. *)
Theorem loginWithNewSAMLResponse_invalidates_only_after request samlResponse existingState
        user w access refresh :
  In (TokensInvalidate access refresh)
     (trace (loginWithNewSAMLResponse this request samlResponse existingState user w)) ->
  let x := callAsInternalUser this (shield_samlAuthenticate [] samlResponse) w in
  exists existing tokens newUser,
    existingState = Some existing
    /\ access = accessToken existing
    /\ refresh = refreshToken existing
    /\ x.1 = Returns tokens
    /\ (getUser_oracle this request
                       (Some (mkAuthHeaders ("Bearer " +:+ access_token tokens))) x.2).1
       = Returns newUser.
Proof.
  intros Hin x.
  destruct x.1 as [tokens|err] eqn:Hx.
  2:{ exfalso. unfold x in Hx.
      rewrite (loginWithNewSAMLResponse_exchange_fails _ _ _ _ _ _ Hx) in Hin.
      absurd_in Hin. }
  destruct (access_token tokens) as [|c tok] eqn:Ht.
  { exfalso. unfold x in Hx.
    rewrite (loginWithNewSAMLResponse_no_access_token _ _ _ _ _ _ Hx Ht) in Hin.
    absurd_in Hin. }
  destruct (getUser_oracle this request
              (Some (mkAuthHeaders ("Bearer " +:+ access_token tokens))) x.2).1
    as [newUser|err] eqn:Hu.
  2:{ exfalso. unfold x in Hx, Hu.
      rewrite (loginWithNewSAMLResponse_user_unresolved _ _ _ _ _ _ _ _ _ Hx Ht Hu) in Hin.
      absurd_in Hin. }
  destruct existingState as [existing|].
  - exists existing, tokens, newUser. unfold x in Hx, Hu.
    rewrite (loginWithNewSAMLResponse_reconciles this _ _ _ _ _ _ _ _ _ Hx Ht Hu) in Hin.
    cbn [trace] in Hin.
    do 9 (destruct Hin as [Hin|Hin]; [discriminate Hin|]).
    destruct Hin as [Hin|Hin].
    + injection Hin as <- <-. repeat split. exact Hu.
    + exfalso.
      destruct (tokens_invalidate this _ _ _).1 as [[]|e];
        [destruct (same_user newUser user)|]; absurd_in Hin.
  - exfalso. unfold x in Hx, Hu.
    assert (In (TokensInvalidate access refresh)
               (calls (trace (loginWithNewSAMLResponse this request samlResponse None user w))))
      as Hc by (apply filter_In; split; [exact Hin|reflexivity]).
    rewrite (loginWithNewSAMLResponse_no_existing_state _ _ _ _ _ _ _ _ Hx Ht Hu) in Hc.
    absurd_in Hc.
Qed.

(** X15. When the cluster answers the exchange of the new SAML response
    with an empty access token, [loginWithNewSAMLResponse] fails with its
    own error, that the user could not be retrieved: the user lookup is
    not made, and the tokens of the existing session are not invalidated. *)
Theorem loginWithNewSAMLResponse_empty_access_token request samlResponse existingState
        user w tokens :
  let exchange := shield_samlAuthenticate [] samlResponse in
  let x := callAsInternalUser this exchange w in
  x.1 = Returns tokens ->
  access_token tokens = "" ->
  let r := loginWithNewSAMLResponse this request samlResponse existingState user w in
  outcome r
  = Returns (failed (Js.new_Error
      "Could not retrieve user information using tokens produced for the SAML payload."))
  /\ world r = x.2
  /\ calls (trace r) = [CallAsInternalUser exchange].
Proof.
  intros exchange x Hx Ht r. subst r.
  rewrite (loginWithNewSAMLResponse_no_access_token _ _ _ _ _ _ Hx Ht).
  repeat split.
Qed.

Lemma login_accepted_token request attempt st w c tok user :
  accessToken st = Some (String c tok) ->
  let authHeaders := mkAuthHeaders ("Bearer " +:+ String c tok) in
  let u := getUser_oracle this request (Some authHeaders) w in
  u.1 = Returns user ->
  login this request attempt (Some st) w
  = after [Debug "Trying to perform a login.";
           Debug "Trying to authenticate via state.";
           GetUser request (Some authHeaders);
           Debug "Request has been authenticated via state."]
          (loginWithNewSAMLResponse this request (samlResponse attempt) (Some st) user u.2).
Proof.
  intros Ht authHeaders u Hu.
  unfold login. cbv zeta. rewrite debug_then, bind_run.
  rewrite (authenticateViaState_token this _ _ _ _ _ Ht). fold authHeaders; fold u.
  rewrite Hu. reduce. unfold after; reduce. reflexivity.
Qed.

(** X16. A [login] on top of a valid session renews it: the user of the
    session is resolved, the SAML response is exchanged as one the
    identity provider sent on its own, without the request id the state
    may hold, the user of the new tokens is resolved, and the two tokens
    of the state, and no others, are invalidated, in that order.  The
    result stores the new pair and redirects to the root under the base
    path when the user is the same, and to the overwritten session page
    when it is not. *)
Theorem login_renews_session request attempt st w c tok user tokens c' tok' newUser :
  accessToken st = Some (String c tok) ->
  let authHeaders := mkAuthHeaders ("Bearer " +:+ String c tok) in
  let u := getUser_oracle this request (Some authHeaders) w in
  u.1 = Returns user ->
  let exchange := shield_samlAuthenticate [] (samlResponse attempt) in
  let x := callAsInternalUser this exchange u.2 in
  x.1 = Returns tokens ->
  access_token tokens = String c' tok' ->
  let newHeaders := mkAuthHeaders ("Bearer " +:+ access_token tokens) in
  let u' := getUser_oracle this request (Some newHeaders) x.2 in
  u'.1 = Returns newUser ->
  let invalidated := tokens_invalidate this (accessToken st) (refreshToken st) u'.2 in
  invalidated.1 = Returns tt ->
  let r := login this request attempt (Some st) w in
  let newState := mkState (Some (access_token tokens)) (Some (refresh_token tokens))
                          None None in
  outcome r
  = Returns (redirectTo (basePath_get this request
                           +:+ if same_user newUser user then "/" else "/overwritten_session")
                        (Some newState))
  /\ world r = invalidated.2
  /\ calls (trace r) = [GetUser request (Some authHeaders);
                        CallAsInternalUser exchange;
                        GetUser request (Some newHeaders);
                        TokensInvalidate (accessToken st) (refreshToken st)].
Proof.
  intros Ht authHeaders u Hu exchange x Hx Ht' newHeaders u' Hu' invalidated Hi r newState.
  subst r. rewrite (login_accepted_token _ _ _ _ _ _ _ Ht Hu). fold authHeaders; fold u.
  rewrite (loginWithNewSAMLResponse_reconciles this _ _ _ _ _ _ _ _ _ Hx Ht' Hu').
  fold exchange x newHeaders u' invalidated. rewrite Hi.
  unfold default_root. destruct (same_user newUser user); repeat split.
Qed.

End LoginFurther.

(** ** More on [logout] *)

Section LogoutFurther.

Context {W : Type} (this : Collaborators W).

(** X17. [logout] calls the cluster at most once.  A request with a
    [SAMLRequest] in its query is a logout of the identity provider,
    whatever the state holds: the cluster is asked to invalidate, for the
    realm or the ACS of the provider, with the search of the URL without
    its first character, the question mark, or with the empty string when
    the URL has no search; the tokens of the state are not sent.  Any
    other request with an access token in the state is a logout of the
    user, with the two tokens of the state.  Nothing is called
    otherwise. *)
Theorem logout_calls request state w :
  calls (trace (logout this request state w))
  = if isSAMLRequestQuery (query request) then
      [CallAsInternalUser
         (shield_samlInvalidate match search (url request) with
                                | Some (String _ queryString) => queryString
                                | _ => ""
                                end
                                (realmOrAcs this request))]
    else
      match state with
      | Some st =>
          if Js.truthy (accessToken st)
          then [CallAsInternalUser (shield_samlLogout (accessToken st) (refreshToken st))]
          else []
      | None => []
      end.
Proof.
  unfold logout. rewrite debug_then.
  destruct (isSAMLRequestQuery (query request)) eqn:Hq.
  - rewrite andb_false_r.
    unfold try_catch, performIdPInitiatedSingleLogout, client_callAsInternalUser.
    rewrite bind_run, debug_then, bind_run, await_run. cbv zeta.
    assert (match search (url request) with
            | Some (String _ _ as search) => Js.slice1 search
            | _ => ""
            end
            = match search (url request) with
              | Some (String _ queryString) => queryString
              | _ => ""
              end) as -> by (destruct (search (url request)) as [[|c q]|]; reflexivity).
    destruct (callAsInternalUser this _ w) as [[[redirect|]|err] w']; reflexivity.
  - rewrite andb_true_r.
    destruct state as [st|]; [|reflexivity]. cbn [mbind option_bind].
    destruct (Js.truthy (accessToken st)); [|reflexivity]. cbn [negb].
    unfold try_catch, performUserInitiatedSingleLogout, client_callAsInternalUser.
    rewrite bind_run, debug_then, bind_run, await_run.
    destruct (callAsInternalUser this _ w) as [[[redirect|]|err] w']; reflexivity.
Qed.

End LogoutFurther.

(** ** The further theorems on the concrete deployment *)

Import AuthenticationResult.

(** X3 on the session of alice. *)
Lemma authenticate_valid_session_witness :
  let r := authenticate Example.all_well (Example.request None None)
                        (Some Example.session) 0 in
  outcome r = Returns (succeeded Example.alice (Some (mkAuthHeaders "Bearer access-1")) None)
  /\ world r = 1.
Proof.
  destruct (authenticate_valid_session
              Example.all_well (Example.request None None) Example.session 0
              "a" "ccess-1" Example.alice eq_refl eq_refl eq_refl)
    as (Ho & Hw & _).
  split; [exact Ho|exact Hw].
Defined.

(** X4 on a session whose expired token the token service refreshes. *)
Lemma authenticate_refreshes_witness :
  let r := authenticate Deployment.refreshing (Example.request None None)
                        (Some Example.session) 0 in
  outcome r
  = Returns (succeeded Example.alice (Some (mkAuthHeaders "Bearer access-2"))
                       (Some (mkState (Some "access-2") (Some "refresh-2") None None)))
  /\ world r = 3.
Proof.
  destruct (authenticate_refreshes
              Deployment.refreshing (Example.request None None) Example.session 0
              "a" "ccess-1" Example.expired "r" "efresh-1"
              (mkTokenPair "access-2" "refresh-2")
              eq_refl eq_refl eq_refl eq_refl eq_refl eq_refl)
    as (Ho & Hw & _).
  split; [exact Ho|exact Hw].
Defined.

(** X5 on a token service that is down. *)
Lemma authenticate_refresh_throws_witness :
  let r := authenticate Deployment.refresh_fails (Example.request None None)
                        (Some Example.session) 0 in
  outcome r = Returns (failed Example.unavailable)
  /\ ~ attempted ViaHandshake (trace r).
Proof.
  destruct (authenticate_refresh_throws
              Deployment.refresh_fails (Example.request None None) Example.session 0
              "a" "ccess-1" Example.expired "r" "efresh-1" Example.unavailable
              eq_refl eq_refl eq_refl eq_refl eq_refl eq_refl)
    as (Ho & _ & _ & Ha).
  split; [exact Ho|exact Ha].
Defined.

(** X6 on a first visit of the browser, and on an AJAX request that comes
    with the state of a handshake. *)
Lemma authenticate_starts_handshake_witness :
  outcome (authenticate Example.all_well (Example.request None None) None 0)
  = Returns (redirectTo "https://idp.test/sso"
                        (Some (mkState None None (Some "request-1") (Some "/kbn/app/home"))))
  /\ outcome (authenticate (Example.tokens_expired false) (Example.request None None)
                           (Some Example.handshake) 0)
     = Returns notHandled.
Proof.
  split.
  - apply (authenticate_starts_handshake
             Example.all_well (Example.request None None) None 0 eq_refl eq_refl).
  - apply (authenticate_starts_handshake
             (Example.tokens_expired false) (Example.request None None)
             (Some Example.handshake) 0 eq_refl eq_refl).
Defined.

(** X7 on the refresh of the expired session. *)
Lemma authenticate_refresh_only_if_witness :
  authorization_header (Example.request None None) = None
  /\ exists st c tok err,
      Some Example.session = Some st
      /\ refreshToken st = Some "refresh-1"
      /\ accessToken st = Some (String c tok)
      /\ (getUser_oracle (Example.tokens_expired false) (Example.request None None)
                         (Some (mkAuthHeaders ("Bearer " +:+ String c tok))) 0).1
         = Throws err
      /\ isAccessTokenExpiredError (Example.tokens_expired false) err = true.
Proof.
  apply (authenticate_refresh_only_if
           (Example.tokens_expired false) (Example.request None None)
           (Some Example.session) 0 "refresh-1").
  vm_compute. auto 10.
Defined.

(** X8 on [BEARER abc], on [Bearer] alone, and on [Bearer:abc]. *)
Lemma authenticate_bearer_credentials_witness :
  outcome (authenticate Example.all_well (Example.request (Some "BEARER abc") None) None 0)
  = Returns (succeeded Example.alice None None)
  /\ outcome (authenticate Example.all_well (Example.request (Some "Bearer") None) None 0)
     = Returns (succeeded Example.alice None None)
  /\ outcome (authenticate Example.all_well (Example.request (Some "Bearer:abc") None) None 0)
     = Returns notHandled.
Proof.
  split; [|split].
  - apply (authenticate_bearer_credentials
             Example.all_well (Example.request (Some "BEARER abc") None) None 0
             "BEARER" " abc" eq_refl eq_refl).
  - apply (authenticate_bearer_credentials
             Example.all_well (Example.request (Some "Bearer") None) None 0
             "Bearer" "" eq_refl eq_refl).
  - apply (authenticate_bearer_credentials
             Example.all_well (Example.request (Some "Bearer:abc") None) None 0
             "Bearer" ":abc" eq_refl eq_refl).
Defined.

(** X18 on a bearer header, with and without a session. *)
Lemma authenticate_header_ignores_state_witness :
  authenticate Example.all_well (Example.request (Some "Bearer abc") None)
               (Some Example.session) 0
  = authenticate Example.all_well (Example.request (Some "Bearer abc") None) None 0.
Proof.
  exact (authenticate_header_ignores_state
           Example.all_well (Example.request (Some "Bearer abc") None)
           (Some Example.session) None 0 "Bearer abc" eq_refl).
Defined.

(** X11 on a session whose token has expired. *)
Lemma login_rejected_session_witness :
  let r := login (Example.tokens_expired true) (Example.request None None)
                 (mkLoginAttempt "PHNhbWw+") (Some Example.session) 0 in
  outcome r = Returns (failed Example.expired)
  /\ world r = 1
  /\ calls (trace r)
     = [GetUser (Example.request None None) (Some (mkAuthHeaders "Bearer access-1"))].
Proof.
  exact (login_rejected_session
           (Example.tokens_expired true) (Example.request None None)
           (mkLoginAttempt "PHNhbWw+") Example.session 0 "a" "ccess-1" Example.expired
           eq_refl eq_refl).
Defined.

(** X12 on a login the identity provider starts, and on an empty state. *)
Lemma login_without_session_witness :
  outcome (login Example.all_well (Example.request None None) (mkLoginAttempt "PHNhbWw+")
                 None 0)
  = Returns (redirectTo "/kbn/"
                        (Some (mkState (Some "access-2") (Some "refresh-2") None None)))
  /\ outcome (login Example.all_well (Example.request None None) (mkLoginAttempt "PHNhbWw+")
                    (Some Deployment.empty_state) 0)
     = Returns (failed (Boom.badRequest
         "SAML response state does not have corresponding request id or redirect URL.")).
Proof.
  split.
  - apply (login_without_session
             Example.all_well (Example.request None None) (mkLoginAttempt "PHNhbWw+")
             None 0 eq_refl).
  - apply (login_without_session
             Example.all_well (Example.request None None) (mkLoginAttempt "PHNhbWw+")
             (Some Deployment.empty_state) 0 eq_refl).
Defined.

(** X13 on a first visit of [/app/home] and the login that follows. *)
Lemma handshake_login_round_trip_witness :
  exists st,
    outcome (authenticate Example.all_well (Example.request None None) None 0)
    = Returns (redirectTo "https://idp.test/sso" (Some st))
    /\ outcome (login Example.all_well (Example.request None None)
                      (mkLoginAttempt "PHNhbWw+") (Some st) 1)
       = Returns (redirectTo "/kbn/app/home"
                             (Some (mkState (Some "access-2") (Some "refresh-2") None None))).
Proof.
  destruct (handshake_login_round_trip
              Example.all_well (Example.request None None) 0
              (mkSamlPrepareResponse "request-1" "https://idp.test/sso")
              (Example.request None None) (mkLoginAttempt "PHNhbWw+") 1
              eq_refl eq_refl eq_refl)
    as (st & Ha & Hl & _); [discriminate|discriminate|].
  exists st. split; [exact Ha|exact Hl].
Defined.

(** X14 on the invalidation of the session of bob. *)
Lemma loginWithNewSAMLResponse_invalidates_only_after_witness :
  exists existing tokens newUser,
    Some Example.session = Some existing
    /\ Some "access-1" = accessToken existing
    /\ Some "refresh-1" = refreshToken existing
    /\ (callAsInternalUser Example.all_well (shield_samlAuthenticate [] "PHNhbWw+") 0).1
       = Returns tokens
    /\ (getUser_oracle Example.all_well (Example.request None None)
                       (Some (mkAuthHeaders ("Bearer " +:+ access_token tokens)))
                       (callAsInternalUser Example.all_well
                                           (shield_samlAuthenticate [] "PHNhbWw+") 0).2).1
       = Returns newUser.
Proof.
  apply (loginWithNewSAMLResponse_invalidates_only_after
           Example.all_well (Example.request None None) "PHNhbWw+"
           (Some Example.session) Example.bob 0 (Some "access-1") (Some "refresh-1")).
  vm_compute. auto 20.
Defined.

(** X15 on a cluster that answers the exchange with empty tokens. *)
Lemma loginWithNewSAMLResponse_empty_access_token_witness :
  let r := loginWithNewSAMLResponse Deployment.exchange_without_tokens
                                    (Example.request None None) "PHNhbWw+"
                                    (Some Example.session) Example.alice 0 in
  outcome r
  = Returns (failed (Js.new_Error
      "Could not retrieve user information using tokens produced for the SAML payload."))
  /\ world r = 1
  /\ calls (trace r) = [CallAsInternalUser (shield_samlAuthenticate [] "PHNhbWw+")].
Proof.
  exact (loginWithNewSAMLResponse_empty_access_token
           Deployment.exchange_without_tokens (Example.request None None) "PHNhbWw+"
           (Some Example.session) Example.alice 0
           (mkSamlAuthenticateResponse "" "") eq_refl eq_refl).
Defined.

(** X16 on the session of alice, which still holds a request id. *)
Lemma login_renews_session_witness :
  let r := login Example.all_well (Example.request None None) (mkLoginAttempt "PHNhbWw+")
                 (Some Example.session_with_requestId) 0 in
  outcome r = Returns (redirectTo "/kbn/"
                         (Some (mkState (Some "access-2") (Some "refresh-2") None None)))
  /\ world r = 4
  /\ calls (trace r)
     = [GetUser (Example.request None None) (Some (mkAuthHeaders "Bearer access-1"));
        CallAsInternalUser (shield_samlAuthenticate [] "PHNhbWw+");
        GetUser (Example.request None None) (Some (mkAuthHeaders "Bearer access-2"));
        TokensInvalidate (Some "access-1") (Some "refresh-1")].
Proof.
  exact (login_renews_session
           Example.all_well (Example.request None None) (mkLoginAttempt "PHNhbWw+")
           Example.session_with_requestId 0 "a" "ccess-1" Example.alice
           (mkSamlAuthenticateResponse "access-2" "refresh-2") "a" "ccess-2" Example.alice
           eq_refl eq_refl eq_refl eq_refl eq_refl eq_refl).
Defined.
